(** * Task tools of the Shrimp task manager: a shallow embedding

    The development follows the TypeScript tool handlers
    [verifyTask], [executeTask], [updateTaskContent] and [splitTasksRaw]
    together with [types/index.ts].  Strings are modelled by [string]
    (one character per UTF-16 code unit, so [String.length] is the
    JavaScript [.length]); JavaScript numbers that reach the handlers are
    finite, and are modelled by rationals ([Q]); timestamps are [Z].

    The handlers import their store operations from
    [models/taskModel.ts]; those operations are modelled in [TaskModel]
    from the specification of the engine, each marked as such. *)

From Stdlib Require Import ZArith QArith Lia DecimalString Sorted.
From stdpp Require Import gmap strings list.

Local Open Scope string_scope.
Local Open Scope list_scope.

(** ** Entity model ([types/index.ts]) *)

Inductive TaskStatus : Type :=
  | PENDING
  | IN_PROGRESS
  | COMPLETED
  | BLOCKED.

#[global] Instance TaskStatus_eq_dec : EqDecision TaskStatus.
Proof. solve_decision. Defined.

Record TaskDependency : Type := mkTaskDependency { taskId : string }.

Inductive RelatedFileType : Type :=
  | TO_MODIFY
  | REFERENCE
  | CREATE
  | DEPENDENCY
  | OTHER.

(** [lineStart] and [lineEnd] are numbers when present. *)
Record RelatedFile : Type := mkRelatedFile {
  path : string;
  type : RelatedFileType;
  rf_description : option string;
  lineStart : option Q;
  lineEnd : option Q
}.

Record Task : Type := mkTask {
  id : string;
  name : string;
  description : string;
  notes : option string;
  status : TaskStatus;
  dependencies : list TaskDependency;
  createdAt : Z;
  updatedAt : Z;
  completedAt : option Z;
  summary : option string;
  relatedFiles : option (list RelatedFile);
  analysisResult : option string;
  implementationGuide : option string;
  verificationCriteria : option string
}.

Inductive TaskComplexityLevel : Type :=
  | LOW
  | MEDIUM
  | HIGH
  | VERY_HIGH.

Module TaskComplexityThresholds.
Module DESCRIPTION_LENGTH.
Definition MEDIUM : nat := 500.
Definition HIGH : nat := 1000.
Definition VERY_HIGH : nat := 2000.
End DESCRIPTION_LENGTH.
Module DEPENDENCIES_COUNT.
Definition MEDIUM : nat := 2.
Definition HIGH : nat := 5.
Definition VERY_HIGH : nat := 10.
End DEPENDENCIES_COUNT.
Module NOTES_LENGTH.
Definition MEDIUM : nat := 200.
Definition HIGH : nat := 500.
Definition VERY_HIGH : nat := 1000.
End NOTES_LENGTH.
End TaskComplexityThresholds.

Record ComplexityMetrics : Type := mkMetrics {
  descriptionLength : nat;
  dependenciesCount : nat;
  notesLength : nat;
  hasNotes : bool
}.

Record TaskComplexityAssessment : Type := mkAssessment {
  level : TaskComplexityLevel;
  metrics : ComplexityMetrics;
  recommendations : list string
}.

(** ** JavaScript values produced by [JSON.parse] *)

#[warnings="-register-all"]
Inductive json : Type :=
  | JNull
  | JBool (b : bool)
  | JNum (q : Q)
  | JStr (s : string)
  | JArr (items : list json)
  | JObj (fields : list (string * json)).

(** Property read [o[k]]; [None] stands for [undefined].  The field list
    of an object holds each key once, as [JSON.parse] builds it. *)
Fixpoint assoc (k : string) (fields : list (string * json)) : option json :=
  match fields with
  | [] => None
  | (k', v) :: rest => if decide (k = k') then Some v else assoc k rest
  end.

(** [typeof]-like tag used in type-mismatch issues. *)
Definition receivedType (j : json) : string :=
  match j with
  | JNull => "null"
  | JBool _ => "boolean"
  | JNum _ => "number"
  | JStr _ => "string"
  | JArr _ => "array"
  | JObj _ => "object"
  end.

(** JavaScript truthiness of the optional values the handlers test. *)
Definition truthyStr (o : option string) : bool :=
  match o with
  | Some s => negb (String.eqb s "")
  | None => false
  end.

Definition truthyNum (o : option Q) : bool :=
  match o with
  | Some q => negb (Qeq_bool q 0)
  | None => false
  end.

Definition truthyArr {A : Type} (o : option (list A)) : bool :=
  match o with
  | Some _ => true
  | None => false
  end.

(** [a > b] on optional numbers; a comparison with [undefined] is false. *)
Definition jsGt (a b : option Q) : bool :=
  match a, b with
  | Some x, Some y => negb (Qle_bool x y)
  | _, _ => false
  end.

(** ** A small model of the zod validators the schemas use

    [safeParse] does not stop at the first problem: every field of every
    element is visited and the issues are collected. *)

Module Zod.

Inductive PathSeg : Type :=
  | Key (k : string)
  | Idx (i : nat).

Record ZodIssue : Type := mkIssue {
  issuePath : list PathSeg;
  issueMessage : string
}.

(** [inl issues] is a failed parse, [inr data] a successful one. *)
Definition Parse (A : Type) : Type := (list ZodIssue + A)%type.

Definition success {A : Type} (r : Parse A) : bool :=
  match r with
  | inr _ => true
  | inl _ => false
  end.

Definition pure {A : Type} (a : A) : Parse A := inr a.

(** Combine two parses, keeping the issues of both. *)
Definition ap {A B : Type} (f : Parse (A -> B)) (x : Parse A) : Parse B :=
  match f, x with
  | inr g, inr a => inr (g a)
  | inl e1, inl e2 => inl (e1 ++ e2)
  | inl e, inr _ => inl e
  | inr _, inl e => inl e
  end.

Definition Schema (A : Type) : Type := list PathSeg -> option json -> Parse A.

Definition typeIssue (p : list PathSeg) (expected : string) (v : option json)
  : list ZodIssue :=
  match v with
  | None => [mkIssue p "Required"]
  | Some j => [mkIssue p ("Expected " ++ expected ++ ", received " ++ receivedType j)]
  end.

(** [z.string()] followed by refinements; each refinement yields the
    message of the check it fails. *)
Definition zString (checks : list (string -> option string)) : Schema string :=
  fun p v =>
    match v with
    | Some (JStr s) =>
        match omap (fun c => c s) checks with
        | [] => inr s
        | msgs => inl (map (mkIssue p) msgs)
        end
    | _ => inl (typeIssue p "string" v)
    end.

Definition max (n : nat) (message : string) : string -> option string :=
  fun s => if (String.length s <=? n)%nat then None else Some message.

Definition min (n : nat) (message : string) : string -> option string :=
  fun s => if (n <=? String.length s)%nat then None else Some message.

(** [Number.isInteger] on a finite number. *)
Definition isInteger (q : Q) : bool :=
  (Qnum q mod Zpos (Qden q) =? 0)%Z.

(** [z.number().int().positive()] *)
Definition zPositiveInt : Schema Q :=
  fun p v =>
    match v with
    | Some (JNum q) =>
        let i1 := if isInteger q then []
                  else [mkIssue p "Expected integer, received float"] in
        let i2 := if negb (Qle_bool q 0) then []
                  else [mkIssue p "Number must be greater than 0"] in
        match i1 ++ i2 with
        | [] => inr q
        | issues => inl issues
        end
    | _ => inl (typeIssue p "number" v)
    end.

(** [.optional()]: [undefined] is accepted; [null] is not. *)
Definition optional {A : Type} (s : Schema A) : Schema (option A) :=
  fun p v =>
    match v with
    | None => inr None
    | Some _ => ap (pure Some) (s p v)
    end.

Fixpoint parseItems {A : Type} (s : Schema A) (p : list PathSeg) (i : nat)
    (items : list json) : Parse (list A) :=
  match items with
  | [] => inr []
  | j :: rest =>
      ap (ap (pure cons) (s (p ++ [Idx i]) (Some j))) (parseItems s p (S i) rest)
  end.

(** [z.array(s)], with an optional [.min(1, message)]. *)
Definition zArray {A : Type} (s : Schema A) (nonEmpty : option string)
  : Schema (list A) :=
  fun p v =>
    match v with
    | Some (JArr items) =>
        let tooSmall :=
          match nonEmpty, items with
          | Some message, [] => inl [mkIssue p message]
          | _, _ => inr tt
          end in
        ap (ap (pure (fun _ l => l)) tooSmall) (parseItems s p 0 items)
    | _ => inl (typeIssue p "array" v)
    end.

(** A key of a [z.object]: the schema of the key applied to [o[k]]. *)
Definition field {A : Type} (k : string) (s : Schema A) (p : list PathSeg)
    (fields : list (string * json)) : Parse A :=
  s (p ++ [Key k]) (assoc k fields).

End Zod.

Declare Scope zod_scope.
Delimit Scope zod_scope with zod.
Notation "f <*> x" := (Zod.ap f x) (at level 61, left associativity) : zod_scope.

(** ** The store and the effects of the handlers

    The handlers are [async] functions over one durable task set.  They are
    modelled in a state monad over [World] whose computations either
    return or throw an [Error] (its message). *)

Record World : Type := mkWorld {
  durable : list Task;                      (* the durable task set *)
  backups : list (string * list Task);      (* backup snapshots, newest first *)
  clock : Z;                                (* reading of [new Date()] *)
  nextUuid : nat;                           (* source of fresh identifiers *)
  backupWritable : bool                     (* whether writing a backup succeeds *)
}.

Inductive Outcome (A : Type) : Type :=
  | Returned (a : A)
  | Thrown (message : string).
Arguments Returned {A} a.
Arguments Thrown {A} message.

Definition M (A : Type) : Type := World -> Outcome A * World.

#[global] Instance M_ret : MRet M := fun A a w => (Returned a, w).

#[global] Instance M_bind : MBind M := fun A B k m w =>
  match m w with
  | (Returned a, w') => k a w'
  | (Thrown e, w') => (Thrown e, w')
  end.

Definition throw {A : Type} (message : string) : M A :=
  fun w => (Thrown message, w).

(** [try { body } catch (error) { handler }] *)
Definition tryCatch {A : Type} (body : M A) (handler : string -> M A) : M A :=
  fun w =>
    match body w with
    | (Returned a, w') => (Returned a, w')
    | (Thrown e, w') => handler e w'
    end.

Definition getWorld : M World := fun w => (Returned w, w).
Definition putWorld (w' : World) : M unit := fun _ => (Returned tt, w').

Definition setDurable (ts : list Task) (w : World) : World :=
  {| durable := ts; backups := backups w; clock := clock w;
     nextUuid := nextUuid w; backupWritable := backupWritable w |}.

(** The fields a content update may supply; [None] is [undefined]. *)
Record TaskUpdates : Type := mkTaskUpdates {
  u_name : option string;
  u_description : option string;
  u_notes : option string;
  u_relatedFiles : option (list RelatedFile);
  u_dependencies : option (list string);
  u_implementationGuide : option string;
  u_verificationCriteria : option string
}.

(** The answer of the model's [updateTaskContent]:
    [{ success, message, task }]. *)
Record UpdateResult : Type := mkUpdateResult {
  updateSuccess : bool;
  updateMessage : string;
  updatedTask : option Task
}.

(** The update modes of the batch tool. *)
Inductive UpdateMode : Type :=
  | Append
  | Overwrite
  | Selective
  | ClearAllTasks.

#[global] Instance UpdateMode_eq_dec : EqDecision UpdateMode.
Proof. solve_decision. Defined.

(** An element of the list given to [batchCreateOrUpdateTasks]. *)
Record TaskInput : Type := mkTaskInput {
  in_name : string;
  in_description : string;
  in_notes : option string;
  in_dependencies : option (list string);
  in_implementationGuide : option string;
  in_verificationCriteria : option string;
  in_relatedFiles : option (list RelatedFile)
}.

(** The answer of the model's [clearAllTasks]:
    [{ success, message, backupFile }]. *)
Record ClearResult : Type := mkClearResult {
  clearSuccess : bool;
  clearMessage : string;
  backupFile : option string
}.

Definition newline : string := String (Ascii.ascii_of_nat 10) EmptyString.

Definition showNat (n : nat) : string := NilZero.string_of_uint (Nat.to_uint n).
Definition showZ (z : Z) : string := NilZero.string_of_int (Z.to_int z).

(** ** The task model ([models/taskModel.ts])

    The handlers import these operations; the module that defines them is
    the Store Facade, the Execution Gate, the Status State Machine, the
    Complexity Assessor and the Batch Reconciler of the specification. *)

Module TaskModel.

Definition findTask (taskId : string) (ts : list Task) : option Task :=
  List.find (fun t => bool_decide (id t = taskId)) ts.

Definition findByName (n : string) (ts : list Task) : option Task :=
  List.find (fun t => bool_decide (name t = n)) ts.

(** Replace the first task whose id is [taskId] by its image under [f]. *)
Fixpoint alterTask (taskId : string) (f : Task -> Task) (ts : list Task)
  : list Task :=
  match ts with
  | [] => []
  | t :: rest =>
      if bool_decide (id t = taskId) then f t :: rest
      else t :: alterTask taskId f rest
  end.

(** Modelled from the spec: [getAllTasks] of the Store Facade (section
    4.7), a read of the current durable snapshot. *)
Definition getAllTasks : M (list Task) :=
  w ← getWorld; mret (durable w).

(** Modelled from the spec: [getTaskById] of the Store Facade (section
    4.7, [getById]); it reads the snapshot and mutates nothing. *)
Definition getTaskById (taskId : string) : M (option Task) :=
  w ← getWorld; mret (findTask taskId (durable w)).

Definition withStatus (s : TaskStatus) (now : Z) (t : Task) : Task :=
  {| id := id t; name := name t; description := description t;
     notes := notes t; status := s; dependencies := dependencies t;
     createdAt := createdAt t; updatedAt := now;
     completedAt := if decide (s = COMPLETED) then Some now else completedAt t;
     summary := summary t; relatedFiles := relatedFiles t;
     analysisResult := analysisResult t;
     implementationGuide := implementationGuide t;
     verificationCriteria := verificationCriteria t |}.

Definition withSummary (s : string) (now : Z) (t : Task) : Task :=
  {| id := id t; name := name t; description := description t;
     notes := notes t; status := status t; dependencies := dependencies t;
     createdAt := createdAt t; updatedAt := now;
     completedAt := completedAt t;
     summary := Some s; relatedFiles := relatedFiles t;
     analysisResult := analysisResult t;
     implementationGuide := implementationGuide t;
     verificationCriteria := verificationCriteria t |}.

(** Modelled from the spec: [updateTaskStatus] of the Status State
    Machine (section 4.5): the stored status is set, [updatedAt] is
    refreshed, and [completedAt] is set when the new status is
    [completed].  The result is the updated task, if the id exists. *)
Definition updateTaskStatus (taskId : string) (s : TaskStatus) : M (option Task) :=
  w ← getWorld;
  putWorld (setDurable (alterTask taskId (withStatus s (clock w)) (durable w)) w);;
  getTaskById taskId.

(** Modelled from the spec: [updateTaskSummary] (section 4.5, side
    effects of verification): the summary is stored and [updatedAt]
    refreshed. *)
Definition updateTaskSummary (taskId : string) (s : string) : M (option Task) :=
  w ← getWorld;
  putWorld (setDurable (alterTask taskId (withSummary s (clock w)) (durable w)) w);;
  getTaskById taskId.

Record ExecutionCheck : Type := mkExecutionCheck {
  canExecute : bool;
  blockedBy : option (list string)
}.

Definition isCompletedId (ts : list Task) (depId : string) : bool :=
  match findTask depId ts with
  | Some d => bool_decide (status d = COMPLETED)
  | None => false
  end.

(** The dependency ids of [t], in dependency-list order, that do not
    resolve to a completed task. *)
Definition blockingDependencies (ts : list Task) (t : Task) : list string :=
  List.filter (fun d => negb (isCompletedId ts d)) (map taskId (dependencies t)).

(** Modelled from the spec: [canExecuteTask], the Execution Gate
    (section 4.4 and the [canExecute] property of section 8).  A task
    that is itself already in progress or completed is not examined: the
    gate does not recompute its dependency status and leaves the report
    of that condition to the transition rules of section 4.5, which
    [executeTask] applies after the gate.  Any other task is executable
    iff every dependency id resolves to a task whose status is
    [completed]; [blockedBy] lists the other dependency ids in
    dependency-list order.  An unknown task is not executable. *)
Definition canExecuteTask (taskId0 : string) : M ExecutionCheck :=
  w ← getWorld;
  match findTask taskId0 (durable w) with
  | None => mret {| canExecute := false; blockedBy := None |}
  | Some t =>
      if bool_decide (status t = IN_PROGRESS) || bool_decide (status t = COMPLETED)
      then mret {| canExecute := true; blockedBy := None |}
      else
        let blocked := blockingDependencies (durable w) t in
        mret {| canExecute := bool_decide (blocked = []); blockedBy := Some blocked |}
  end.

Definition tier (x medium high veryHigh : nat) : TaskComplexityLevel :=
  if (veryHigh <? x)%nat then VERY_HIGH
  else if (high <? x)%nat then HIGH
  else if (medium <? x)%nat then MEDIUM
  else LOW.

Definition levelRank (l : TaskComplexityLevel) : nat :=
  match l with
  | LOW => 0
  | MEDIUM => 1
  | HIGH => 2
  | VERY_HIGH => 3
  end.

Definition maxLevel (a b : TaskComplexityLevel) : TaskComplexityLevel :=
  if (levelRank a <? levelRank b)%nat then b else a.

Definition optLength (o : option string) : nat :=
  match o with
  | Some s => String.length s
  | None => 0
  end.

(** Modelled from the spec: [assessTaskComplexity], the Complexity
    Assessor (section 4.2) over the thresholds of [types/index.ts]:
    strictly-greater comparisons per metric, the overall level being the
    highest tier reached; the only recommendation the specification
    names is the one at [very_high]. *)
Definition assessTaskComplexity (taskId0 : string) : M (option TaskComplexityAssessment) :=
  t ← getTaskById taskId0;
  match t with
  | None => mret None
  | Some t =>
      let m := {| descriptionLength := String.length (description t);
                  dependenciesCount := length (dependencies t);
                  notesLength := optLength (notes t);
                  hasNotes := truthyStr (notes t) |} in
      let l :=
        maxLevel
          (tier (descriptionLength m)
                TaskComplexityThresholds.DESCRIPTION_LENGTH.MEDIUM
                TaskComplexityThresholds.DESCRIPTION_LENGTH.HIGH
                TaskComplexityThresholds.DESCRIPTION_LENGTH.VERY_HIGH)
          (maxLevel
             (tier (dependenciesCount m)
                   TaskComplexityThresholds.DEPENDENCIES_COUNT.MEDIUM
                   TaskComplexityThresholds.DEPENDENCIES_COUNT.HIGH
                   TaskComplexityThresholds.DEPENDENCIES_COUNT.VERY_HIGH)
             (tier (notesLength m)
                   TaskComplexityThresholds.NOTES_LENGTH.MEDIUM
                   TaskComplexityThresholds.NOTES_LENGTH.HIGH
                   TaskComplexityThresholds.NOTES_LENGTH.VERY_HIGH)) in
      mret (Some {| level := l; metrics := m;
                    recommendations :=
                      match l with
                      | VERY_HIGH => ["consider splitting"]
                      | _ => []
                      end |})
  end.

(** An id and a name, the two keys a dependency token may match. *)
Definition keysOf (ts : list Task) : list (string * string) :=
  map (fun t => (id t, name t)) ts.

Definition idMatch (tok : string) (ks : list (string * string)) : option string :=
  fst <$> List.find (fun k => bool_decide (fst k = tok)) ks.

Definition nameMatch (tok : string) (ks : list (string * string)) : option string :=
  fst <$> List.find (fun k => bool_decide (snd k = tok)) ks.

(** Modelled from the spec: the Dependency Resolver (section 4.3) on one
    token: exact id match first, then exact name match, a match in the
    incoming batch preferred over one in the durable set. *)
Definition resolveToken (incoming surviving : list (string * string))
    (tok : string) : option string :=
  match idMatch tok (incoming ++ surviving) with
  | Some i => Some i
  | None =>
      match nameMatch tok incoming with
      | Some i => Some i
      | None => nameMatch tok surviving
      end
  end.

(** Modelled from the spec: the Dependency Resolver (section 4.3) on a
    token list: the resolved ids, unique by id and in token order, or
    the first token that resolves to nothing. *)
Fixpoint resolveDependencies (incoming surviving : list (string * string))
    (seen : list string) (toks : list string) : string + list TaskDependency :=
  match toks with
  | [] => inr []
  | tok :: rest =>
      match resolveToken incoming surviving tok with
      | None => inl tok
      | Some i =>
          if bool_decide (i ∈ seen) then
            resolveDependencies incoming surviving seen rest
          else
            match resolveDependencies incoming surviving (i :: seen) rest with
            | inl bad => inl bad
            | inr ds => inr (mkTaskDependency i :: ds)
            end
      end
  end.

Definition replaced {A : Type} (new : option A) (old : A) : A :=
  match new with
  | Some a => a
  | None => old
  end.

Definition replacedOpt {A : Type} (new old : option A) : option A :=
  match new with
  | Some a => Some a
  | None => old
  end.

Definition withContent (u : TaskUpdates) (deps : list TaskDependency) (now : Z)
    (t : Task) : Task :=
  {| id := id t;
     name := replaced (u_name u) (name t);
     description := replaced (u_description u) (description t);
     notes := replacedOpt (u_notes u) (notes t);
     status := status t;
     dependencies := deps;
     createdAt := createdAt t; updatedAt := now;
     completedAt := completedAt t; summary := summary t;
     relatedFiles := replacedOpt (u_relatedFiles u) (relatedFiles t);
     analysisResult := analysisResult t;
     implementationGuide := replacedOpt (u_implementationGuide u) (implementationGuide t);
     verificationCriteria := replacedOpt (u_verificationCriteria u) (verificationCriteria t) |}.

(** Modelled from the spec: the model's [updateTaskContent]
    ([updateContent] of section 6, with the whole-field replace
    semantics of section 3): a field changes only if it is supplied,
    dependency tokens are resolved against the durable set, and a
    request that cannot be applied leaves the set as it was. *)
Definition updateTaskContent (taskId : string) (u : TaskUpdates) : M UpdateResult :=
  w ← getWorld;
  match findTask taskId (durable w) with
  | None => mret {| updateSuccess := false; updateMessage := "NotFound";
                    updatedTask := None |}
  | Some t =>
      let deps :=
        match u_dependencies u with
        | None => inr (dependencies t)
        | Some toks => resolveDependencies [] (keysOf (durable w)) [] toks
        end in
      match deps with
      | inl tok => mret {| updateSuccess := false;
                           updateMessage := "DependencyNotFound: " ++ tok;
                           updatedTask := None |}
      | inr ds =>
          putWorld (setDurable
                      (alterTask taskId (withContent u ds (clock w)) (durable w))
                      w);;
          mret {| updateSuccess := true; updateMessage := "updated";
                  updatedTask := Some (withContent u ds (clock w) t) |}
      end
  end.

(** Fresh identifiers; the source draws UUIDs, any injective supply
    serves the specification. *)
Definition uuidv4 (n : nat) : string := "task-" ++ showNat n.

Definition backupPathAt (now : Z) : string :=
  "tasks_backup_" ++ showZ now ++ ".json".

(** Modelled from the spec: [clearAllTasks] (section 4.6, mode
    [clearAllTasks]; section 3, lifecycle): the whole durable set is
    written to a timestamped backup and only then emptied; when the
    backup cannot be written nothing is destroyed. *)
Definition clearAllTasks : M ClearResult :=
  w ← getWorld;
  if backupWritable w then
    let file := backupPathAt (clock w) in
    putWorld {| durable := []; backups := (file, durable w) :: backups w;
                clock := clock w; nextUuid := nextUuid w;
                backupWritable := backupWritable w |};;
    mret {| clearSuccess := true;
            clearMessage := "Tasks cleared, backup written to " ++ file;
            backupFile := Some file |}
  else
    mret {| clearSuccess := false;
            clearMessage := "IOError: the backup could not be written";
            backupFile := None |}.

(** The tasks of the durable set a batch keeps (section 4.6, column
    "effect on existing tasks"). *)
Definition survivors (updateMode : UpdateMode) (existing : list Task) : list Task :=
  match updateMode with
  | Overwrite => List.filter (fun t => bool_decide (status t = COMPLETED)) existing
  | _ => existing
  end.

(** Each incoming task gets the existing task it updates (mode
    [selective], matched by name) or a fresh id. *)
Fixpoint assignTargets (updateMode : UpdateMode) (surviving : list Task)
    (n : nat) (inputs : list TaskInput)
  : list (string * option Task * TaskInput) * nat :=
  match inputs with
  | [] => ([], n)
  | d :: rest =>
      match (if decide (updateMode = Selective)
             then findByName (in_name d) surviving else None) with
      | Some old =>
          let '(r, n') := assignTargets updateMode surviving n rest in
          ((id old, Some old, d) :: r, n')
      | None =>
          let '(r, n') := assignTargets updateMode surviving (S n) rest in
          ((uuidv4 n, None, d) :: r, n')
      end
  end.

Definition buildTask (globalAnalysisResult : option string) (now : Z)
    (target : string * option Task * TaskInput) (deps : list TaskDependency) : Task :=
  let '(i, old, d) := target in
  match old with
  | Some t =>
      {| id := id t; name := in_name d; description := in_description d;
         notes := in_notes d; status := status t; dependencies := deps;
         createdAt := createdAt t; updatedAt := updatedAt t;
         completedAt := completedAt t; summary := summary t;
         relatedFiles := in_relatedFiles d;
         analysisResult := replacedOpt (analysisResult t) globalAnalysisResult;
         implementationGuide := in_implementationGuide d;
         verificationCriteria := in_verificationCriteria d |}
  | None =>
      {| id := i; name := in_name d; description := in_description d;
         notes := in_notes d; status := PENDING; dependencies := deps;
         createdAt := now; updatedAt := now;
         completedAt := None; summary := None;
         relatedFiles := in_relatedFiles d;
         analysisResult := globalAnalysisResult;
         implementationGuide := in_implementationGuide d;
         verificationCriteria := in_verificationCriteria d |}
  end.

Fixpoint buildAll (globalAnalysisResult : option string) (now : Z)
    (incoming surviving : list (string * string))
    (targets : list (string * option Task * TaskInput)) : string + list Task :=
  match targets with
  | [] => inr []
  | target :: rest =>
      match resolveDependencies incoming surviving []
              (default [] (in_dependencies (snd target))) with
      | inl tok => inl tok
      | inr deps =>
          match buildAll globalAnalysisResult now incoming surviving rest with
          | inl tok => inl tok
          | inr ts => inr (buildTask globalAnalysisResult now target deps :: ts)
          end
      end
  end.

(** The new durable set: surviving tasks, those matched by an incoming
    task replaced in place, followed by the newly created tasks. *)
Definition mergeTasks (surviving built : list Task) : list Task :=
  map (fun t => default t (findTask (id t) built)) surviving
  ++ List.filter (fun b => negb (bool_decide (is_Some (findTask (id b) surviving)))) built.

(** Modelled from the spec: [batchCreateOrUpdateTasks], the Batch
    Reconciler (section 4.6) for the modes [append], [overwrite] and
    [selective] (the handler clears before it calls with [append]).
    Dependencies are resolved against the surviving tasks and the
    incoming batch; a token that resolves to nothing fails the whole
    batch with [DependencyNotFound] and leaves the durable set as it
    was; otherwise the new set is committed and the created or updated
    tasks are returned in batch order. *)
Definition batchCreateOrUpdateTasks (taskDataList : list TaskInput)
    (updateMode : UpdateMode) (globalAnalysisResult : option string)
  : M (list Task) :=
  w ← getWorld;
  let surviving := survivors updateMode (durable w) in
  let '(targets, n') := assignTargets updateMode surviving (nextUuid w) taskDataList in
  let incoming := map (fun tg => (fst (fst tg), in_name (snd tg))) targets in
  match buildAll globalAnalysisResult (clock w) incoming (keysOf surviving) targets with
  | inl tok => throw ("DependencyNotFound: " ++ tok)
  | inr built =>
      putWorld {| durable := mergeTasks surviving built; backups := backups w;
                  clock := clock w; nextUuid := n';
                  backupWritable := backupWritable w |};;
      mret built
  end.

End TaskModel.

(** ** Tool responses

    A handler answers with [{ content: [{ type: "text", text }] }],
    sometimes with [isError] and, for the batch tool, with [ephemeral].
    The text is kept as the template that produces it together with the
    values it is instantiated with; rendering prompts is outside the
    model. *)

Record TaskCreationResult : Type := mkTaskCreationResult {
  success : bool;
  message : string;
  backupFilePath : option string
}.

Record ToolResponse (T : Type) : Type := mkResponse {
  content : T;
  isError : option bool;
  ephemeral : option TaskCreationResult
}.
Arguments mkResponse {T} content isError ephemeral.
Arguments content {T} _.
Arguments isError {T} _.
Arguments ephemeral {T} _.

(** [{ content: [...] }] *)
Definition textResponse {T : Type} (t : T) : ToolResponse T :=
  mkResponse t None None.

(** [{ content: [...], isError: true }] *)
Definition errorResponse {T : Type} (t : T) : ToolResponse T :=
  mkResponse t (Some true) None.

(** The value and the final store of running a handler. *)
Definition result {A : Type} (m : M A) (w : World) : Outcome A := fst (m w).
Definition after {A : Type} (m : M A) (w : World) : World := snd (m w).

(** ** [verifyTask] *)

Inductive VerifyText : Type :=
  (* "## System Error ... Task with ID `taskId` not found." *)
  | VerifyTaskNotFound (taskId : string)
  (* "## Status Error ... current status is ..., not in progress, cannot be verified." *)
  | VerifyStatusError (task : Task)
  (* getVerifyTaskPrompt({ task, score, summary }) *)
  | VerifyTaskPrompt (task : Task) (score : Q) (summary : string).

Definition verifyTask (taskId summary : string) (score : Q)
  : M (ToolResponse VerifyText) :=
  task ← TaskModel.getTaskById taskId;
  match task with
  | None => mret (errorResponse (VerifyTaskNotFound taskId))
  | Some task =>
      if negb (bool_decide (status task = IN_PROGRESS)) then
        mret (errorResponse (VerifyStatusError task))
      else
        (if Qle_bool 80 score then
           TaskModel.updateTaskSummary taskId summary;;
           TaskModel.updateTaskStatus taskId COMPLETED;;
           mret tt
         else mret tt);;
        mret (textResponse (VerifyTaskPrompt task score summary))
  end.

(** ** [executeTask] *)

Inductive BlockedByTasksText : Type :=
  (* "Blocked by the following incomplete dependency tasks: a, b" *)
  | BlockedByTasks (ids : list string)
  (* "Unable to determine blocking reason" *)
  | UnableToDetermine.

Record ComplexityReport : Type := mkComplexityReport {
  reportLevel : TaskComplexityLevel;
  reportDescriptionLength : nat;
  reportDependenciesCount : nat;
  reportRecommendations : list string
}.

Inductive ExecuteText : Type :=
  (* "Task with ID `taskId` not found. Please confirm the ID is correct." *)
  | ExecuteTaskNotFound (taskId : string)
  (* "Task "name" (ID: `taskId`) cannot be executed at this time. ..." *)
  | CannotBeExecuted (name taskId : string) (reason : BlockedByTasksText)
  (* "Task "name" (ID: `taskId`) is already in progress." *)
  | AlreadyInProgress (name taskId : string)
  (* "Task "name" (ID: `taskId`) is already marked as completed. To
     re-execute, please delete the task using delete_task and recreate it." *)
  | AlreadyCompleted (name taskId : string)
  (* getExecuteTaskPrompt({ task, complexityAssessment, relatedFilesSummary,
     dependencyTasks }); the summary is a rendering of the related files
     given to loadTaskRelatedFiles *)
  | ExecuteTaskPrompt (task : Task) (complexityAssessment : option ComplexityReport)
      (relatedFilesLoaded : list RelatedFile) (dependencyTasks : list Task)
  (* "Error executing task: ..." *)
  | ErrorExecutingTask (message : string).

(** The reason [executeTask] gives when the gate refuses. *)
Definition blockedByTasksText (executionCheck : TaskModel.ExecutionCheck)
  : BlockedByTasksText :=
  match TaskModel.blockedBy executionCheck with
  | Some (b :: bs) => BlockedByTasks (b :: bs)
  | _ => UnableToDetermine
  end.

Fixpoint dependencyTasksOf (deps : list TaskDependency) : M (list Task) :=
  match deps with
  | [] => mret []
  | dep :: rest =>
      depTask ← TaskModel.getTaskById (taskId dep);
      others ← dependencyTasksOf rest;
      mret (match depTask with
            | Some d => d :: others
            | None => others
            end)
  end.

Definition executeTask (taskId : string) : M (ToolResponse ExecuteText) :=
  tryCatch
    (task ← TaskModel.getTaskById taskId;
     match task with
     | None => mret (textResponse (ExecuteTaskNotFound taskId))
     | Some task =>
         executionCheck ← TaskModel.canExecuteTask taskId;
         if negb (TaskModel.canExecute executionCheck) then
           mret (textResponse
                   (CannotBeExecuted (name task) taskId
                      (blockedByTasksText executionCheck)))
         else if bool_decide (status task = IN_PROGRESS) then
           mret (textResponse (AlreadyInProgress (name task) taskId))
         else if bool_decide (status task = COMPLETED) then
           mret (textResponse (AlreadyCompleted (name task) taskId))
         else
           TaskModel.updateTaskStatus taskId IN_PROGRESS;;
           complexityResult ← TaskModel.assessTaskComplexity taskId;
           let complexityAssessment :=
             match complexityResult with
             | Some c =>
                 Some {| reportLevel := level c;
                         reportDescriptionLength := descriptionLength (metrics c);
                         reportDependenciesCount := dependenciesCount (metrics c);
                         reportRecommendations := recommendations c |}
             | None => None
             end in
           dependencyTasks ← dependencyTasksOf (dependencies task);
           let relatedFilesLoaded :=
             match relatedFiles task with
             | Some (f :: fs) => f :: fs
             | _ => []
             end in
           mret (textResponse
                   (ExecuteTaskPrompt task complexityAssessment relatedFilesLoaded
                                      dependencyTasks))
     end)
    (fun error => mret (textResponse (ErrorExecutingTask error))).

(** ** [updateTaskContent] *)

(** The parameters the handler gives to [getUpdateTaskContentPrompt]. *)
Record UpdateTaskContentPromptParams : Type := mkUpdatePrompt {
  p_taskId : string;
  p_task : option Task;
  p_success : option bool;
  p_message : option string;
  p_validationError : option string;
  p_emptyUpdate : option bool;
  p_updatedTask : option Task
}.

Definition invalidLineNumbers : string :=
  "Invalid line number setting: Both start and end lines must be set, and the start line must be less than the end line".

(** The test the handler applies to each supplied related file. *)
Definition invalidLineRange (file : RelatedFile) : bool :=
  (truthyNum (lineStart file) && negb (truthyNum (lineEnd file)))
  || (negb (truthyNum (lineStart file)) && truthyNum (lineEnd file))
  || (truthyNum (lineStart file) && truthyNum (lineEnd file)
      && jsGt (lineStart file) (lineEnd file)).

Definition updateTaskContent (taskId : string) (u : TaskUpdates)
  : M (ToolResponse UpdateTaskContentPromptParams) :=
  if match u_relatedFiles u with
     | Some files => existsb invalidLineRange files
     | None => false
     end
  then
    mret (textResponse
            {| p_taskId := taskId; p_task := None; p_success := None;
               p_message := None; p_validationError := Some invalidLineNumbers;
               p_emptyUpdate := None; p_updatedTask := None |})
  else if negb (truthyStr (u_name u)
                || truthyStr (u_description u)
                || truthyStr (u_notes u)
                || truthyArr (u_dependencies u)
                || truthyStr (u_implementationGuide u)
                || truthyStr (u_verificationCriteria u)
                || truthyArr (u_relatedFiles u))
  then
    mret (textResponse
            {| p_taskId := taskId; p_task := None; p_success := None;
               p_message := None; p_validationError := None;
               p_emptyUpdate := Some true; p_updatedTask := None |})
  else
    task ← TaskModel.getTaskById taskId;
    match task with
    | None =>
        mret (errorResponse
                {| p_taskId := taskId; p_task := None; p_success := None;
                   p_message := None; p_validationError := None;
                   p_emptyUpdate := None; p_updatedTask := None |})
    | Some task =>
        r ← TaskModel.updateTaskContent taskId u;
        mret (mkResponse
                {| p_taskId := taskId; p_task := Some task;
                   p_success := Some (updateSuccess r);
                   p_message := Some (updateMessage r);
                   p_validationError := None; p_emptyUpdate := None;
                   p_updatedTask := updatedTask r |}
                (Some (negb (updateSuccess r))) None)
    end.

(** The refinements [updateTaskContentSchema] puts on a related file:
    a non-empty path and, when present, positive integer line numbers. *)
Definition positiveInt (o : option Q) : bool :=
  match o with
  | Some q => Zod.isInteger q && negb (Qle_bool q 0)
  | None => true
  end.

Definition relatedFileSchemaOk (file : RelatedFile) : bool :=
  (1 <=? String.length (path file))%nat
  && positiveInt (lineStart file)
  && positiveInt (lineEnd file).

(** [updateTaskContentSchema] on the typed arguments of the handler; the
    pattern [UUID_V4_REGEX] is declared in [utils/regex.ts] and is a
    parameter here. *)
Definition updateTaskContentSchema (UUID_V4_REGEX : string -> bool)
    (taskId : string) (u : TaskUpdates) : bool :=
  UUID_V4_REGEX taskId
  && match u_relatedFiles u with
     | Some files => forallb relatedFileSchemaOk files
     | None => true
     end.

(** ** [splitTasksRaw] *)

(** What [tasksSchema] yields for one element of the list. *)
Record RawTask : Type := mkRawTask {
  raw_name : string;
  raw_description : string;
  raw_implementationGuide : string;
  raw_dependencies : option (list string);
  raw_notes : option string;
  raw_relatedFiles : option (list RelatedFile);
  raw_verificationCriteria : option string
}.

Local Open Scope zod_scope.

(** [z.object({...})]: the value must be an object; its keys are then
    parsed one by one. *)
Definition zObject {A : Type}
    (keys : list Zod.PathSeg -> list (string * json) -> Zod.Parse A) : Zod.Schema A :=
  fun p v =>
    match v with
    | Some (JObj fields) => keys p fields
    | _ => inl (Zod.typeIssue p "object" v)
    end.

(** [z.nativeEnum(RelatedFileType)] *)
Definition zRelatedFileType : Zod.Schema RelatedFileType :=
  fun p v =>
    match v with
    | Some (JStr s) =>
        if String.eqb s "TO_MODIFY" then inr TO_MODIFY
        else if String.eqb s "REFERENCE" then inr REFERENCE
        else if String.eqb s "CREATE" then inr CREATE
        else if String.eqb s "DEPENDENCY" then inr DEPENDENCY
        else if String.eqb s "OTHER" then inr OTHER
        else inl [Zod.mkIssue p "Invalid enum value"]
    | _ => inl (Zod.typeIssue p "enum" v)
    end.

Definition relatedFileSchema : Zod.Schema RelatedFile :=
  zObject (fun p o =>
    Zod.pure mkRelatedFile
    <*> Zod.field "path" (Zod.zString [Zod.min 1 "File path cannot be empty"]) p o
    <*> Zod.field "type" zRelatedFileType p o
    <*> (Zod.pure Some
         <*> Zod.field "description"
               (Zod.zString [Zod.min 1 "File description cannot be empty"]) p o)
    <*> Zod.field "lineStart" (Zod.optional Zod.zPositiveInt) p o
    <*> Zod.field "lineEnd" (Zod.optional Zod.zPositiveInt) p o).

Definition taskSchema : Zod.Schema RawTask :=
  zObject (fun p o =>
    Zod.pure mkRawTask
    <*> Zod.field "name"
          (Zod.zString
             [Zod.max 100 "Task name is too long, please limit to within 100 characters"])
          p o
    <*> Zod.field "description"
          (Zod.zString
             [Zod.min 10 "Task description is too short, please provide more detailed content to ensure understanding"])
          p o
    <*> Zod.field "implementationGuide" (Zod.zString []) p o
    <*> Zod.field "dependencies" (Zod.optional (Zod.zArray (Zod.zString []) None)) p o
    <*> Zod.field "notes" (Zod.optional (Zod.zString [])) p o
    <*> Zod.field "relatedFiles" (Zod.optional (Zod.zArray relatedFileSchema None)) p o
    <*> Zod.field "verificationCriteria" (Zod.optional (Zod.zString [])) p o).

Definition tasksSchema : Zod.Schema (list RawTask) :=
  Zod.zArray taskSchema (Some "Please provide at least one task").

Local Close Scope zod_scope.

(** The outcome of [JSON.parse(tasksRaw)]. *)
Inductive ParseOutcome : Type :=
  | ParseThrows (message : string)
  | Parsed (value : json).

Inductive SplitText : Type :=
  (* "tasksRaw parameter format error, ... error message: " + message *)
  | TasksRawFormatError (message : string)
  (* "tasks parameter format error, ... error message: " + tasksResult.error.message *)
  | TasksFormatError (issues : list Zod.ZodIssue)
  (* "Duplicate task names exist in the tasks parameter, please ensure each
     task name is unique" *)
  | DuplicateTaskNames
  (* getSplitTasksPrompt({ updateMode, createdTasks, allTasks }) *)
  | SplitTasksPrompt (updateMode : UpdateMode) (createdTasks allTasks : list Task)
  (* "Error executing task splitting: " + message *)
  | ErrorExecutingSplit (message : string).

(** The loop over [tasks] with [nameSet]: it answers at the first name
    already in the set. *)
Fixpoint duplicateName (nameSet : gset string) (tasks : list RawTask) : bool :=
  match tasks with
  | [] => false
  | task :: rest =>
      if bool_decide (raw_name task ∈ nameSet) then true
      else duplicateName ({[ raw_name task ]} ∪ nameSet) rest
  end.

Definition convertTask (task : RawTask) : TaskInput :=
  {| in_name := raw_name task;
     in_description := raw_description task;
     in_notes := raw_notes task;
     in_dependencies := raw_dependencies task;
     in_implementationGuide := Some (raw_implementationGuide task);
     in_verificationCriteria := raw_verificationCriteria task;
     in_relatedFiles :=
       (map (fun file =>
               {| path := path file; type := type file;
                  rf_description := rf_description file;
                  lineStart := lineStart file; lineEnd := lineEnd file |}))
       <$> raw_relatedFiles task |}.

(** The variables the mode-specific part of the handler assigns. *)
Record SplitState : Type := mkSplitState {
  st_message : string;
  st_actionSuccess : bool;
  st_backupFile : option string;
  st_createdTasks : list Task
}.

Definition applyUpdateMode (updateMode : UpdateMode) (convertedTasks : list TaskInput)
    (globalAnalysisResult : option string) : M SplitState :=
  if decide (updateMode = ClearAllTasks) then
    clearResult ← TaskModel.clearAllTasks;
    if clearSuccess clearResult then
      let message := clearMessage clearResult in
      let backupFile := backupFile clearResult in
      tryCatch
        (createdTasks ← TaskModel.batchCreateOrUpdateTasks convertedTasks Append
                          globalAnalysisResult;
         mret {| st_message :=
                   message ++ newline ++ "成功創建了 "
                   ++ showNat (length createdTasks) ++ " 個新任務。";
                 st_actionSuccess := true;
                 st_backupFile := backupFile;
                 st_createdTasks := createdTasks |})
        (fun error =>
           mret {| st_message :=
                     message ++ newline ++ "Error creating new tasks: " ++ error;
                   st_actionSuccess := false;
                   st_backupFile := backupFile;
                   st_createdTasks := [] |})
    else
      mret {| st_message := clearMessage clearResult;
              st_actionSuccess := false;
              st_backupFile := None;
              st_createdTasks := [] |}
  else
    tryCatch
      (createdTasks ← TaskModel.batchCreateOrUpdateTasks convertedTasks updateMode
                        globalAnalysisResult;
       mret {| st_message :=
                 match updateMode with
                 | Append =>
                     "成功追加了 " ++ showNat (length createdTasks) ++ " 個新任務。"
                 | Overwrite =>
                     "成功清除未完成任務並創建了 "
                     ++ showNat (length createdTasks) ++ " 個新任務。"
                 | Selective =>
                     "成功選擇性更新/創建了 "
                     ++ showNat (length createdTasks) ++ " 個任務。"
                 | ClearAllTasks => ""
                 end;
               st_actionSuccess := true;
               st_backupFile := None;
               st_createdTasks := createdTasks |})
      (fun error =>
         mret {| st_message := "Task creation failed: " ++ error;
                 st_actionSuccess := false;
                 st_backupFile := None;
                 st_createdTasks := [] |}).

Definition splitTasksRaw (updateMode : UpdateMode) (tasksRaw : ParseOutcome)
    (globalAnalysisResult : option string) : M (ToolResponse SplitText) :=
  match tasksRaw with
  | ParseThrows error => mret (textResponse (TasksRawFormatError error))
  | Parsed parsed =>
      match tasksSchema [] (Some parsed) with
      | inl issues => mret (textResponse (TasksFormatError issues))
      | inr tasks =>
          tryCatch
            (if duplicateName ∅ tasks then
               mret (textResponse DuplicateTaskNames)
             else
               let convertedTasks := map convertTask tasks in
               st ← applyUpdateMode updateMode convertedTasks globalAnalysisResult;
               allTasks ← tryCatch TaskModel.getAllTasks
                                    (fun _ => mret (st_createdTasks st));
               mret (mkResponse
                       (SplitTasksPrompt updateMode (st_createdTasks st) allTasks)
                       None
                       (Some {| success := st_actionSuccess st;
                                message := st_message st;
                                backupFilePath := st_backupFile st |})))
            (fun error => mret (textResponse (ErrorExecutingSplit error)))
      end
  end.

(** A related file whose line range the data model excludes: exactly one
    of [lineStart] and [lineEnd] present, or both with
    [lineStart > lineEnd]. *)
Definition badLineRange (file : RelatedFile) : Prop :=
  (is_Some (lineStart file) /\ lineEnd file = None)
  \/ (lineStart file = None /\ is_Some (lineEnd file))
  \/ (exists a b, lineStart file = Some a /\ lineEnd file = Some b /\ (b < a)%Q).

(** The validation answer of [updateTaskContent]. *)
Definition lineNumberRejection (taskId : string)
  : ToolResponse UpdateTaskContentPromptParams :=
  textResponse
    {| p_taskId := taskId; p_task := None; p_success := None;
       p_message := None; p_validationError := Some invalidLineNumbers;
       p_emptyUpdate := None; p_updatedTask := None |}.

(** ** Sample stores *)

Definition sampleTask (i n : string) (s : TaskStatus) (deps : list string) : Task :=
  {| id := i; name := n; description := "a task of the sample store";
     notes := None; status := s; dependencies := map mkTaskDependency deps;
     createdAt := 1000; updatedAt := 1000;
     completedAt := if decide (s = COMPLETED) then Some 1000%Z else None;
     summary := None; relatedFiles := None; analysisResult := None;
     implementationGuide := None; verificationCriteria := None |}.

Definition sampleWorld (ts : list Task) : World :=
  {| durable := ts; backups := []; clock := 2000; nextUuid := 0;
     backupWritable := true |}.

Definition summary30 : string := "implemented and tested the parser".

Definition taskStarted : Task := sampleTask "t1" "write the parser" IN_PROGRESS [].
Definition taskWaiting : Task := sampleTask "t0" "draft the grammar" PENDING [].
Definition taskDone : Task := sampleTask "t9" "set up the repository" COMPLETED [].

(** A pending task whose only dependency is itself pending, and one whose
    only dependency is completed. *)
Definition taskBlocked : Task := sampleTask "t4" "write the printer" PENDING ["t0"].
Definition taskReady : Task := sampleTask "t5" "configure the build" PENDING ["t9"].

(** A completed task and a started task whose dependency list names a
    task that is still pending. *)
Definition taskDoneBlocked : Task := sampleTask "t2" "publish" COMPLETED ["t0"].
Definition taskStartedBlocked : Task := sampleTask "t3" "review" IN_PROGRESS ["t0"].

Definition sampleStore : World :=
  sampleWorld [taskWaiting; taskStarted; taskDone; taskBlocked; taskReady;
               taskDoneBlocked; taskStartedBlocked].

Definition noUpdates : TaskUpdates :=
  {| u_name := None; u_description := None; u_notes := None;
     u_relatedFiles := None; u_dependencies := None;
     u_implementationGuide := None; u_verificationCriteria := None |}.

(** The answer of [updateTaskContent] to a request that supplies nothing. *)
Definition emptyUpdateAnswer (taskId : string)
  : ToolResponse UpdateTaskContentPromptParams :=
  textResponse
    {| p_taskId := taskId; p_task := None; p_success := None;
       p_message := None; p_validationError := None;
       p_emptyUpdate := Some true; p_updatedTask := None |}.

Definition fileWithLines (a b : option Q) : RelatedFile :=
  {| path := "src/parser.ts"; type := TO_MODIFY; rf_description := None;
     lineStart := a; lineEnd := b |}.

Definition fileReversed : RelatedFile := fileWithLines (Some 5%Q) (Some 3%Q).
Definition fileSingleLine : RelatedFile := fileWithLines (Some 7%Q) (Some 7%Q).

Definition filesUpdate (files : list RelatedFile) : TaskUpdates :=
  {| u_name := None; u_description := None; u_notes := None;
     u_relatedFiles := Some files; u_dependencies := None;
     u_implementationGuide := None; u_verificationCriteria := None |}.

(** Sample batches, as [JSON.parse] returns them. *)
Definition taskJson (n d : string) (deps : list string) : json :=
  JObj [("name", JStr n); ("description", JStr d);
        ("implementationGuide", JStr "follow the plan");
        ("dependencies", JArr (map JStr deps))].

Definition tenChars : string := "0123456789".

Definition batchTwice : json :=
  JArr [taskJson "lexer" tenChars []; taskJson "parser" tenChars ["lexer"];
        taskJson "lexer" tenChars []].

Definition batchNameless : json := JArr [taskJson "" tenChars []].

Definition batchUnresolved : json := JArr [taskJson "printer" tenChars ["no such task"]].

Definition batchShortDescription : json := JArr [taskJson "printer" "too short" []].

(** The store once the clear step of [clearAllTasks] has committed. *)
Definition cleared (w : World) : World :=
  {| durable := [];
     backups := (TaskModel.backupPathAt (clock w), durable w) :: backups w;
     clock := clock w; nextUuid := nextUuid w;
     backupWritable := backupWritable w |}.

(** The message of a committed clear. *)
Definition clearedMessage (w : World) : string :=
  "Tasks cleared, backup written to " ++ TaskModel.backupPathAt (clock w).

(** A store whose backup location cannot be written. *)
Definition sampleStoreNoBackup : World :=
  {| durable := durable sampleStore; backups := []; clock := 2000; nextUuid := 0;
     backupWritable := false |}.

(** What [tasksSchema] makes of [batchUnresolved]. *)
Definition tasksUnresolved : list RawTask :=
  [{| raw_name := "printer"; raw_description := tenChars;
      raw_implementationGuide := "follow the plan";
      raw_dependencies := Some ["no such task"]; raw_notes := None;
      raw_relatedFiles := None; raw_verificationCriteria := None |}].

Definition longName : string :=
  String.string_of_list_ascii (List.repeat (Ascii.ascii_of_nat 97) 101).

Definition batchLongName : json := JArr [taskJson longName tenChars []].

(** A related file whose start line is 0: the number is falsy. *)
Definition fileFromZero : RelatedFile := fileWithLines (Some 0%Q) (Some 5%Q).

(** An update whose only supplied field is an empty name. *)
Definition blankNameUpdate : TaskUpdates :=
  {| u_name := Some ""; u_description := None; u_notes := None;
     u_relatedFiles := None; u_dependencies := None;
     u_implementationGuide := None; u_verificationCriteria := None |}.

(** ** [loadTaskRelatedFiles] ([utils/fileLoader.ts])

    The summary is built from the metadata of the files only.  Numbers are
    printed by JavaScript's number-to-string conversion, a parameter
    [numberToString] here; lengths are natural numbers and are printed in
    decimal. *)

#[global] Instance RelatedFileType_eq_dec : EqDecision RelatedFileType.
Proof. solve_decision. Defined.

Definition relatedFileTypeName (t : RelatedFileType) : string :=
  match t with
  | TO_MODIFY => "TO_MODIFY"
  | REFERENCE => "REFERENCE"
  | CREATE => "CREATE"
  | DEPENDENCY => "DEPENDENCY"
  | OTHER => "OTHER"
  end.

Definition priorityOrder (t : RelatedFileType) : nat :=
  match t with
  | TO_MODIFY => 1
  | REFERENCE => 2
  | DEPENDENCY => 3
  | CREATE => 4
  | OTHER => 5
  end.

(** [[...relatedFiles].sort((a, b) => priorityOrder[a.type] -
    priorityOrder[b.type])]: the sort is stable, so its result is the one
    of any stable sort; insertion from the right is used. *)
Fixpoint insertByPriority (file : RelatedFile) (sorted : list RelatedFile)
  : list RelatedFile :=
  match sorted with
  | [] => [file]
  | g :: rest =>
      if (priorityOrder (type file) <=? priorityOrder (type g))%nat
      then file :: g :: rest
      else g :: insertByPriority file rest
  end.

Definition sortedFiles (relatedFiles : list RelatedFile) : list RelatedFile :=
  foldr insertByPriority [] relatedFiles.

Definition descriptionSuffix (file : RelatedFile) : string :=
  if truthyStr (rf_description file)
  then " - " ++ default "" (rf_description file)
  else "".

Definition hasLineRange (file : RelatedFile) : bool :=
  truthyNum (lineStart file) && truthyNum (lineEnd file).

Definition lineRangeText (numberToString : Q -> string) (file : RelatedFile) : string :=
  numberToString (default 0%Q (lineStart file)) ++ "-"
  ++ numberToString (default 0%Q (lineEnd file)).

Definition generateFileInfo (numberToString : Q -> string) (file : RelatedFile)
  : string :=
  "File: " ++ path file ++ newline
  ++ "Type: " ++ relatedFileTypeName (type file) ++ newline
  ++ (if truthyStr (rf_description file)
      then "Description: " ++ default "" (rf_description file) ++ newline
      else "")
  ++ (if hasLineRange file
      then "Line Range: " ++ lineRangeText numberToString file ++ newline
      else "")
  ++ "To view actual content, please directly view the file: " ++ path file
  ++ newline.

Definition fileHeader (numberToString : Q -> string) (file : RelatedFile) : string :=
  newline ++ "### " ++ relatedFileTypeName (type file) ++ ": " ++ path file
  ++ descriptionSuffix file
  ++ (if hasLineRange file
      then " (Lines " ++ lineRangeText numberToString file ++ ")"
      else "")
  ++ newline ++ newline.

(** What one file adds to [totalContent], to [filesSummary] and to
    [totalLength]. *)
Definition fileBlock (numberToString : Q -> string) (file : RelatedFile) : string :=
  fileHeader numberToString file ++ "```" ++ newline
  ++ generateFileInfo numberToString file ++ newline ++ "```" ++ newline ++ newline.

Definition fileSummaryLine (numberToString : Q -> string) (file : RelatedFile)
  : string :=
  "- **" ++ path file ++ "**" ++ descriptionSuffix file
  ++ " (" ++ showNat (String.length (generateFileInfo numberToString file))
  ++ " characters)" ++ newline.

Definition fileCost (numberToString : Q -> string) (file : RelatedFile) : nat :=
  String.length (generateFileInfo numberToString file)
  + String.length (fileHeader numberToString file) + 8.

Definition limitReached : string :=
  newline ++ "### Context length limit reached, some files not loaded" ++ newline.

Record LoadedFiles : Type := mkLoadedFiles {
  loadedContent : string;
  loadedSummary : string
}.

(** The loop over the sorted files, with its three accumulators. *)
Fixpoint loadLoop (numberToString : Q -> string) (maxTotalLength : Z)
    (files : list RelatedFile) (totalContent filesSummary : string)
    (totalLength : nat) : LoadedFiles :=
  match files with
  | [] => {| loadedContent := totalContent; loadedSummary := filesSummary |}
  | file :: rest =>
      if (maxTotalLength <=? Z.of_nat totalLength)%Z then
        {| loadedContent := totalContent;
           loadedSummary := filesSummary ++ limitReached |}
      else
        loadLoop numberToString maxTotalLength rest
          (totalContent ++ fileBlock numberToString file)
          (filesSummary ++ fileSummaryLine numberToString file)
          (totalLength + String.length (generateFileInfo numberToString file)
           + String.length (fileHeader numberToString file) + 8)
  end.

Definition summaryHeader (relatedFiles : list RelatedFile) : string :=
  "## Related File Content Summary (" ++ showNat (length relatedFiles) ++ " files)"
  ++ newline ++ newline.

Definition loadTaskRelatedFiles (numberToString : Q -> string)
    (relatedFiles : list RelatedFile) (maxTotalLength : Z) : LoadedFiles :=
  match relatedFiles with
  | [] => {| loadedContent := ""; loadedSummary := "No related files" |}
  | _ =>
      loadLoop numberToString maxTotalLength (sortedFiles relatedFiles)
        "" (summaryHeader relatedFiles) 0
  end.

(** The default of [maxTotalLength]. *)
Definition defaultMaxTotalLength : Z := 15000.

Definition concatStrings (l : list string) : string := foldr String.append "" l.

(** Sample related files and a number printer for integers. *)
Definition showInteger (q : Q) : string := showZ (Qnum q / Zpos (Qden q)).

Definition fileToModify : RelatedFile :=
  {| path := "src/parser.ts"; type := TO_MODIFY; rf_description := Some "the parser";
     lineStart := Some 10%Q; lineEnd := Some 20%Q |}.

Definition fileToCreate : RelatedFile :=
  {| path := "src/printer.ts"; type := CREATE; rf_description := None;
     lineStart := None; lineEnd := None |}.

Definition fileForReference : RelatedFile :=
  {| path := "docs/grammar.md"; type := REFERENCE; rf_description := Some "";
     lineStart := None; lineEnd := None |}.

Definition sampleFiles : list RelatedFile :=
  [fileToCreate; fileForReference; fileToModify].

(** ** What [tasksSchema] accepts, field by field *)

(** A string that satisfies [P]. *)
Definition isStr (P : string -> Prop) (v : option json) : Prop :=
  exists s, v = Some (JStr s) /\ P s.

(** [undefined], or a value that satisfies [P]. *)
Definition optionally (P : option json -> Prop) (v : option json) : Prop :=
  v = None \/ P v.

(** An array whose elements all satisfy [P]. *)
Definition isArrayOf (P : json -> Prop) (v : option json) : Prop :=
  exists items, v = Some (JArr items) /\ Forall P items.

Definition isPositiveInteger (v : option json) : Prop :=
  exists q, v = Some (JNum q) /\ Zod.isInteger q = true /\ (0 < q)%Q.

Definition isRelatedFileType (v : option json) : Prop :=
  exists t, v = Some (JStr (relatedFileTypeName t)).

Definition relatedFileAccepted (j : json) : Prop :=
  exists o, j = JObj o
    /\ isStr (fun s => 1 <= String.length s)%nat (assoc "path" o)
    /\ isRelatedFileType (assoc "type" o)
    /\ isStr (fun s => 1 <= String.length s)%nat (assoc "description" o)
    /\ optionally isPositiveInteger (assoc "lineStart" o)
    /\ optionally isPositiveInteger (assoc "lineEnd" o).

Definition taskAccepted (j : json) : Prop :=
  exists o, j = JObj o
    /\ isStr (fun s => String.length s <= 100)%nat (assoc "name" o)
    /\ isStr (fun s => 10 <= String.length s)%nat (assoc "description" o)
    /\ isStr (fun _ => True) (assoc "implementationGuide" o)
    /\ optionally (isArrayOf (fun d => exists s, d = JStr s)) (assoc "dependencies" o)
    /\ optionally (isStr (fun _ => True)) (assoc "notes" o)
    /\ optionally (isArrayOf relatedFileAccepted) (assoc "relatedFiles" o)
    /\ optionally (isStr (fun _ => True)) (assoc "verificationCriteria" o).

(** A parsed batch the schema lets through: a non-empty array of
    accepted tasks. *)
Definition batchAccepted (parsed : json) : Prop :=
  exists items, parsed = JArr items /\ items <> [] /\ Forall taskAccepted items.

(** Sample values for the schema. *)
Definition fileJson (start finish : Q) : json :=
  JObj [("path", JStr "src/parser.ts"); ("type", JStr "TO_MODIFY");
        ("description", JStr "the parser");
        ("lineStart", JNum start); ("lineEnd", JNum finish)].

Definition taskWithFileJson (file : json) : json :=
  JObj [("name", JStr "parser"); ("description", JStr tenChars);
        ("implementationGuide", JStr "follow the plan");
        ("relatedFiles", JArr [file])].

(** ** More answers of [updateTaskContent] *)

(** A string field that the handler takes as not supplied: [undefined]
    or the empty string. *)
Definition absentOrEmpty (o : option string) : Prop := o = None \/ o = Some "".

Definition nothingSupplied (u : TaskUpdates) : Prop :=
  absentOrEmpty (u_name u)
  /\ absentOrEmpty (u_description u)
  /\ absentOrEmpty (u_notes u)
  /\ u_dependencies u = None
  /\ absentOrEmpty (u_implementationGuide u)
  /\ absentOrEmpty (u_verificationCriteria u)
  /\ u_relatedFiles u = None.

(** The answer of [updateTaskContent] for a task that does not exist. *)
Definition taskNotFoundAnswer (taskId : string)
  : ToolResponse UpdateTaskContentPromptParams :=
  errorResponse
    {| p_taskId := taskId; p_task := None; p_success := None;
       p_message := None; p_validationError := None;
       p_emptyUpdate := None; p_updatedTask := None |}.

(** An update that supplies only an empty dependency list. *)
Definition noDependenciesUpdate : TaskUpdates :=
  {| u_name := None; u_description := None; u_notes := None;
     u_relatedFiles := None; u_dependencies := Some [];
     u_implementationGuide := None; u_verificationCriteria := None |}.

(** A stored task whose status is [blocked], with a completed dependency. *)
Definition taskMarkedBlocked : Task := sampleTask "t7" "deploy" BLOCKED ["t9"].

Definition storeWithBlocked : World := sampleWorld [taskDone; taskMarkedBlocked].

(** ** [processThought] ([tools/thought/processThought.ts]) *)

Record ProcessThoughtParams : Type := mkProcessThoughtParams {
  thought : string;
  thought_number : Q;
  total_thoughts : Q;
  next_thought_needed : bool;
  stage : string;
  tags : option (list string);
  axioms_used : option (list string);
  assumptions_challenged : option (list string)
}.

(** [ProcessThoughtPromptParams], the data given to the prompt. *)
Record ThoughtData : Type := mkThoughtData {
  td_thought : string;
  thoughtNumber : Q;
  totalThoughts : Q;
  nextThoughtNeeded : bool;
  td_stage : string;
  td_tags : list string;
  td_axioms_used : list string;
  td_assumptions_challenged : list string
}.

Inductive ThoughtText : Type :=
  (* the text that getProcessThoughtPrompt(thoughtData) returned *)
  | FormattedThought (text : string)
  (* "Error processing thought: ..." *)
  | ErrorProcessingThought (message : string).

(** The thought data the handler builds and then adjusts. *)
Definition thoughtDataOf (params : ProcessThoughtParams) : ThoughtData :=
  let thoughtData :=
    {| td_thought := thought params;
       thoughtNumber := thought_number params;
       totalThoughts := total_thoughts params;
       nextThoughtNeeded := next_thought_needed params;
       td_stage := stage params;
       td_tags := default [] (tags params);
       td_axioms_used := default [] (axioms_used params);
       td_assumptions_challenged := default [] (assumptions_challenged params) |} in
  if jsGt (Some (thoughtNumber thoughtData)) (Some (totalThoughts thoughtData)) then
    {| td_thought := td_thought thoughtData;
       thoughtNumber := thoughtNumber thoughtData;
       totalThoughts := thoughtNumber thoughtData;
       nextThoughtNeeded := nextThoughtNeeded thoughtData;
       td_stage := td_stage thoughtData;
       td_tags := td_tags thoughtData;
       td_axioms_used := td_axioms_used thoughtData;
       td_assumptions_challenged := td_assumptions_challenged thoughtData |}
  else thoughtData.

(** What [processThought] answers for an outcome of the prompt
    generator. *)
Definition thoughtAnswer (formatted : Outcome string) : ToolResponse ThoughtText :=
  match formatted with
  | Returned formattedThought => textResponse (FormattedThought formattedThought)
  | Thrown errorMessage => textResponse (ErrorProcessingThought errorMessage)
  end.

(** The handler touches no store.  The prompt generator
    [getProcessThoughtPrompt] is declared in [prompts/] and is a parameter
    here; it returns the text or throws. *)
Definition processThought (getProcessThoughtPrompt : ThoughtData -> Outcome string)
    (params : ProcessThoughtParams) : ToolResponse ThoughtText :=
  thoughtAnswer (getProcessThoughtPrompt (thoughtDataOf params)).

(** ** The keys of a task object that [splitTasksRaw] reads *)

Definition taskKeys : list string :=
  ["name"; "description"; "implementationGuide"; "dependencies"; "notes";
   "relatedFiles"; "verificationCriteria"].

(** Two objects with the same values under the keys of [tasksSchema]. *)
Definition sameTaskKeys (j j' : json) : Prop :=
  exists o o', j = JObj o /\ j' = JObj o'
    /\ Forall (fun k => assoc k o = assoc k o') taskKeys.

(** A task object that also names an id, a status and a summary. *)
Definition taskJsonWithStatus : json :=
  JObj [("id", JStr "t9"); ("status", JStr "completed");
        ("name", JStr "lexer"); ("description", JStr tenChars);
        ("summary", JStr "already done");
        ("implementationGuide", JStr "follow the plan");
        ("dependencies", JArr [])].

(** ** [getTaskDetail] *)

Inductive TaskDetailText : Type :=
  (* "## Error ... Task with ID `taskId` not found. ..." *)
  | TaskDetailNotFound (taskId : string)
  (* getGetTaskDetailPrompt({ taskId, task }) *)
  | TaskDetailPrompt (taskId : string) (task : Task)
  (* getGetTaskDetailPrompt({ taskId, error }) *)
  | TaskDetailErrorPrompt (taskId : string) (error : string).

(** [searchTasksWithCommand] is declared in [models/taskModel.ts] and is a
    parameter here; its result is represented by its [tasks] field. *)
Definition getTaskDetail
    (searchTasksWithCommand : string -> bool -> nat -> nat -> M (list Task))
    (taskId : string) : M (ToolResponse TaskDetailText) :=
  tryCatch
    (tasks ← searchTasksWithCommand taskId true 1%nat 1%nat;
     match tasks with
     | [] => mret (errorResponse (TaskDetailNotFound taskId))
     | task :: _ => mret (textResponse (TaskDetailPrompt taskId task))
     end)
    (fun error => mret (textResponse (TaskDetailErrorPrompt taskId error))).

(** A search over the durable set by id, and one that always throws. *)
Definition searchDurable : string -> bool -> nat -> nat -> M (list Task) :=
  fun query _ _ _ =>
    w ← getWorld;
    mret (match TaskModel.findTask query (durable w) with
          | Some t => [t]
          | None => []
          end).

Definition searchUnavailable : string -> bool -> nat -> nat -> M (list Task) :=
  fun _ _ _ _ => throw "memory directory unreadable".

(** An update that renames a task. *)
Definition renameUpdate : TaskUpdates :=
  {| u_name := Some "write the new parser"; u_description := None; u_notes := None;
     u_relatedFiles := None; u_dependencies := None;
     u_implementationGuide := None; u_verificationCriteria := None |}.

(** * Properties *)

Section StoreLemmas.

Import TaskModel.

Lemma findTask_alterTask (taskId : string) (f : Task -> Task) (ts : list Task) :
  (forall t, id (f t) = id t) ->
  findTask taskId (alterTask taskId f ts) = f <$> findTask taskId ts.
Proof.
  intros Hid. unfold findTask.
  induction ts as [|t ts IH]; simpl; [reflexivity|].
  destruct (bool_decide (id t = taskId)) eqn:E; simpl.
  - rewrite Hid, E. reflexivity.
  - rewrite E. exact IH.
Qed.

Lemma withStatus_id (s : TaskStatus) (now : Z) (t : Task) : id (withStatus s now t) = id t.
Proof. reflexivity. Qed.

Lemma withSummary_id (s : string) (now : Z) (t : Task) : id (withSummary s now t) = id t.
Proof. reflexivity. Qed.

End StoreLemmas.

(** Case analysis on every test and match a handler makes. *)
Ltac branches :=
  repeat match goal with
         | |- context [if ?b then _ else _] => destruct b
         | |- context [match ?o with Some _ => _ | None => _ end] => destruct o
         | |- context [match ?o with inl _ => _ | inr _ => _ end] => destruct o
         end; simpl.

Ltac run_handler :=
  unfold result, after, mbind, M_bind, mret, M_ret, getWorld, putWorld,
    tryCatch, throw, textResponse, errorResponse; simpl.

(** C1. For a task in progress, [verifyTask] with a score of at least 80
    (and a summary of at least 30 characters) leaves the task completed
    with the summary attached; with a score below 80 (and a text of at
    least 30 characters) it answers with the verification prompt and
    changes nothing, so the status stays as it was. *)
Theorem verifyTask_score_threshold
    (w : World) (taskId text : string) (score : Q) (t : Task) :
  TaskModel.findTask taskId (durable w) = Some t ->
  status t = IN_PROGRESS ->
  (30 <= String.length text)%nat ->
  ((80 <= score)%Q ->
     result (verifyTask taskId text score) w
       = Returned (textResponse (VerifyTaskPrompt t score text))
     /\ exists t',
          TaskModel.findTask taskId (durable (after (verifyTask taskId text score) w))
            = Some t'
          /\ status t' = COMPLETED /\ summary t' = Some text)
  /\ ((score < 80)%Q ->
        result (verifyTask taskId text score) w
          = Returned (textResponse (VerifyTaskPrompt t score text))
        /\ after (verifyTask taskId text score) w = w).
Proof.
  intros Hfind Hst _. split; intros Hs.
  - apply Qle_bool_iff in Hs.
    unfold verifyTask, TaskModel.getTaskById, TaskModel.updateTaskSummary,
      TaskModel.updateTaskStatus. run_handler.
    rewrite Hfind. simpl. rewrite Hst. simpl. rewrite Hs. simpl.
    split; [reflexivity|].
    rewrite !findTask_alterTask by (intros; reflexivity).
    rewrite Hfind. simpl. eexists. split; [reflexivity|]. split; reflexivity.
  - assert (Hb : Qle_bool 80 score = false).
    { destruct (Qle_bool 80 score) eqn:E; [|reflexivity].
      apply Qle_bool_iff in E. exfalso. exact (Qlt_not_le _ _ Hs E). }
    unfold verifyTask, TaskModel.getTaskById. run_handler.
    rewrite Hfind. simpl. rewrite Hst. simpl. rewrite Hb. simpl.
    split; reflexivity.
Qed.

Lemma verifyTask_score_threshold_witness :
  (exists t',
     TaskModel.findTask "t1" (durable (after (verifyTask "t1" summary30 90) sampleStore))
       = Some t'
     /\ status t' = COMPLETED /\ summary t' = Some summary30)
  /\ after (verifyTask "t1" summary30 50) sampleStore = sampleStore.
Proof.
  assert (Hlen : (30 <= String.length summary30)%nat) by (vm_compute; lia).
  split.
  - apply (verifyTask_score_threshold sampleStore "t1" summary30 90 taskStarted
             eq_refl eq_refl Hlen).
    unfold Qle; simpl; lia.
  - apply (verifyTask_score_threshold sampleStore "t1" summary30 50 taskStarted
             eq_refl eq_refl Hlen).
    unfold Qlt; simpl; lia.
Defined.

(** C6. For a task whose status is not [in_progress], [verifyTask]
    answers with the status error ([isError] set) and changes nothing:
    the store, hence the task's status, summary and timestamps, is as
    before. *)
Theorem verifyTask_not_in_progress
    (w : World) (taskId text : string) (score : Q) (t : Task) :
  TaskModel.findTask taskId (durable w) = Some t ->
  status t <> IN_PROGRESS ->
  result (verifyTask taskId text score) w
    = Returned (errorResponse (VerifyStatusError t))
  /\ isError (errorResponse (VerifyStatusError t)) = Some true
  /\ after (verifyTask taskId text score) w = w.
Proof.
  intros Hfind Hst.
  unfold verifyTask, TaskModel.getTaskById. run_handler.
  rewrite Hfind. simpl.
  rewrite bool_decide_eq_false_2 by exact Hst. simpl.
  repeat split.
Qed.

Lemma verifyTask_not_in_progress_witness :
  (result (verifyTask "t0" summary30 90) sampleStore
     = Returned (errorResponse (VerifyStatusError taskWaiting))
   /\ after (verifyTask "t0" summary30 90) sampleStore = sampleStore)
  /\ (result (verifyTask "t9" summary30 90) sampleStore
        = Returned (errorResponse (VerifyStatusError taskDone))
      /\ after (verifyTask "t9" summary30 90) sampleStore = sampleStore).
Proof.
  split.
  - destruct (verifyTask_not_in_progress sampleStore "t0" summary30 90 taskWaiting
                eq_refl ltac:(discriminate)) as (Hr & _ & Hw).
    split; assumption.
  - destruct (verifyTask_not_in_progress sampleStore "t9" summary30 90 taskDone
                eq_refl ltac:(discriminate)) as (Hr & _ & Hw).
    split; assumption.
Defined.

(** ** The execution gate and [executeTask] *)

Section ExecuteTask.

Import TaskModel.

(** The gate on a task that is neither in progress nor completed. *)
Lemma canExecuteTask_found (w : World) (tid : string) (t : Task) :
  findTask tid (durable w) = Some t ->
  status t <> IN_PROGRESS ->
  status t <> COMPLETED ->
  canExecuteTask tid w
    = (Returned {| canExecute := bool_decide (blockingDependencies (durable w) t = []);
                   blockedBy := Some (blockingDependencies (durable w) t) |}, w).
Proof.
  intros Hfind Hs1 Hs2. unfold canExecuteTask. run_handler. rewrite Hfind.
  rewrite !bool_decide_eq_false_2 by assumption. reflexivity.
Qed.

(** The gate on a task that is in progress or completed. *)
Lemma canExecuteTask_settled (w : World) (tid : string) (t : Task) :
  findTask tid (durable w) = Some t ->
  status t = IN_PROGRESS \/ status t = COMPLETED ->
  canExecuteTask tid w = (Returned {| canExecute := true; blockedBy := None |}, w).
Proof.
  intros Hfind [Hs|Hs]; unfold canExecuteTask; run_handler; rewrite Hfind, Hs;
    reflexivity.
Qed.

Lemma blockingDependencies_nil (ts : list Task) (t : Task) :
  blockingDependencies ts t = []
  <-> (forall d, In d (dependencies t) -> isCompletedId ts (taskId d) = true).
Proof.
  unfold blockingDependencies. split.
  - intros He d Hd.
    destruct (isCompletedId ts (taskId d)) eqn:E; [reflexivity|].
    assert (Hin : In (taskId d)
                     (List.filter (fun d => negb (isCompletedId ts d))
                                  (map taskId (dependencies t)))).
    { apply filter_In. split; [apply in_map; exact Hd | rewrite E; reflexivity]. }
    rewrite He in Hin. destruct Hin.
  - intros Hall.
    induction (dependencies t) as [|d ds IH]; simpl; [reflexivity|].
    rewrite (Hall d (or_introl eq_refl)). simpl.
    apply IH. intros d' Hd'. apply Hall. right. exact Hd'.
Qed.

Lemma dependencyTasksOf_reads (deps : list TaskDependency) (w : World) :
  exists l, dependencyTasksOf deps w = (Returned l, w).
Proof.
  induction deps as [|d ds [l IH]]; simpl.
  - eexists. reflexivity.
  - unfold getTaskById. run_handler. fold (dependencyTasksOf ds).
    rewrite IH. eexists. reflexivity.
Qed.

Lemma assessTaskComplexity_reads (tid : string) (w : World) :
  exists c, assessTaskComplexity tid w = (Returned c, w).
Proof.
  unfold assessTaskComplexity, getTaskById. run_handler.
  destruct (findTask tid (durable w)); eexists; reflexivity.
Qed.

(** [executeTask] when the gate refuses: the answer is the blocked report
    and nothing is written. *)
Lemma executeTask_blocked (w : World) (tid : string) (t : Task) :
  findTask tid (durable w) = Some t ->
  status t <> IN_PROGRESS ->
  status t <> COMPLETED ->
  blockingDependencies (durable w) t <> [] ->
  executeTask tid w
    = (Returned (textResponse
                   (CannotBeExecuted (name t) tid
                      (BlockedByTasks (blockingDependencies (durable w) t)))), w).
Proof.
  intros Hfind Hs1 Hs2 Hne. unfold executeTask, getTaskById. run_handler.
  rewrite Hfind. simpl.
  rewrite (canExecuteTask_found _ _ _ Hfind Hs1 Hs2). simpl.
  rewrite bool_decide_eq_false_2 by exact Hne. unfold blockedByTasksText. simpl.
  destruct (blockingDependencies (durable w) t) as [|b bs]; [contradiction|reflexivity].
Qed.

(** [executeTask] when the gate lets the task through. *)
Lemma executeTask_passed_started (w : World) (tid : string) (t : Task) :
  findTask tid (durable w) = Some t ->
  status t = IN_PROGRESS ->
  executeTask tid w = (Returned (textResponse (AlreadyInProgress (name t) tid)), w).
Proof.
  intros Hfind Hst. unfold executeTask, getTaskById. run_handler.
  rewrite Hfind. simpl.
  rewrite (canExecuteTask_settled _ _ _ Hfind (or_introl Hst)). simpl.
  rewrite Hst. reflexivity.
Qed.

Lemma executeTask_passed_completed (w : World) (tid : string) (t : Task) :
  findTask tid (durable w) = Some t ->
  status t = COMPLETED ->
  executeTask tid w = (Returned (textResponse (AlreadyCompleted (name t) tid)), w).
Proof.
  intros Hfind Hst. unfold executeTask, getTaskById. run_handler.
  rewrite Hfind. simpl.
  rewrite (canExecuteTask_settled _ _ _ Hfind (or_intror Hst)). simpl.
  rewrite Hst. reflexivity.
Qed.

Lemma executeTask_passed_pending (w : World) (tid : string) (t : Task) :
  findTask tid (durable w) = Some t ->
  blockingDependencies (durable w) t = [] ->
  status t = PENDING ->
  after (executeTask tid) w
    = setDurable (alterTask tid (withStatus IN_PROGRESS (clock w)) (durable w)) w
  /\ exists c fs ds,
       result (executeTask tid) w = Returned (textResponse (ExecuteTaskPrompt t c fs ds)).
Proof.
  intros Hfind He Hst. unfold executeTask, getTaskById. run_handler.
  rewrite Hfind. simpl.
  rewrite (canExecuteTask_found _ _ _ Hfind) by (rewrite Hst; discriminate).
  simpl. rewrite He, Hst. simpl.
  unfold updateTaskStatus, getTaskById. run_handler.
  set (w' := setDurable _ w).
  destruct (assessTaskComplexity_reads tid w') as [c Hc]. rewrite Hc.
  destruct (dependencyTasksOf_reads (dependencies t) w') as [l Hl]. rewrite Hl.
  simpl. split; [reflexivity|]. do 3 eexists. reflexivity.
Qed.

End ExecuteTask.

(** C3. For a pending task, [executeTask] moves the stored status to
    [in_progress] only when the Execution Gate reports the task
    executable, which it does exactly when every dependency is completed;
    when the gate reports it not executable, [executeTask] answers with
    the cannot-be-executed report listing the blocking dependency ids and
    leaves the store, hence the stored status, unchanged. *)
Theorem executeTask_pending_gate
    (w : World) (tid : string) (t : Task) (chk : TaskModel.ExecutionCheck) :
  TaskModel.findTask tid (durable w) = Some t ->
  status t = PENDING ->
  result (TaskModel.canExecuteTask tid) w = Returned chk ->
  (TaskModel.canExecute chk = true
     <-> (forall d, In d (dependencies t) ->
            TaskModel.isCompletedId (durable w) (taskId d) = true))
  /\ (TaskModel.canExecute chk = true ->
        exists t',
          TaskModel.findTask tid (durable (after (executeTask tid) w)) = Some t'
          /\ status t' = IN_PROGRESS /\ updatedAt t' = clock w)
  /\ (TaskModel.canExecute chk = false ->
        exists ids,
          TaskModel.blockedBy chk = Some ids /\ ids <> []
          /\ ids = TaskModel.blockingDependencies (durable w) t
          /\ result (executeTask tid) w
             = Returned (textResponse (CannotBeExecuted (name t) tid (BlockedByTasks ids)))
          /\ after (executeTask tid) w = w)
  /\ (forall t',
        TaskModel.findTask tid (durable (after (executeTask tid) w)) = Some t' ->
        status t' = IN_PROGRESS ->
        TaskModel.canExecute chk = true).
Proof.
  intros Hfind Hst Hchk.
  assert (Hs1 : status t <> IN_PROGRESS) by (rewrite Hst; discriminate).
  assert (Hs2 : status t <> COMPLETED) by (rewrite Hst; discriminate).
  unfold result in Hchk. rewrite (canExecuteTask_found _ _ _ Hfind Hs1 Hs2) in Hchk.
  simpl in Hchk. injection Hchk as <-. simpl.
  assert (Hblocked :
            bool_decide (TaskModel.blockingDependencies (durable w) t = []) = false ->
            TaskModel.blockingDependencies (durable w) t <> []
            /\ executeTask tid w
               = (Returned (textResponse
                    (CannotBeExecuted (name t) tid
                       (BlockedByTasks (TaskModel.blockingDependencies (durable w) t)))), w)).
  { intros Hb. apply bool_decide_eq_false in Hb. split; [exact Hb|].
    apply executeTask_blocked; assumption. }
  split; [|split; [|split]].
  - rewrite bool_decide_eq_true. apply blockingDependencies_nil.
  - intros Hc. apply bool_decide_eq_true in Hc.
    destruct (executeTask_passed_pending _ _ _ Hfind Hc Hst) as [Hw _].
    rewrite Hw. simpl.
    rewrite findTask_alterTask by (intros; reflexivity).
    rewrite Hfind. simpl. eexists. repeat split.
  - intros Hc. destruct (Hblocked Hc) as [Hne He].
    eexists. split; [reflexivity|]. split; [exact Hne|]. split; [reflexivity|].
    unfold result, after. rewrite He. split; reflexivity.
  - intros t' Hfind' Hst'.
    destruct (bool_decide (TaskModel.blockingDependencies (durable w) t = [])) eqn:Hb;
      [reflexivity|].
    destruct (Hblocked eq_refl) as [_ He].
    unfold after in Hfind'. rewrite He in Hfind'. simpl in Hfind'.
    rewrite Hfind in Hfind'. injection Hfind' as <-. congruence.
Qed.

Lemma executeTask_pending_gate_witness :
  (exists t',
     TaskModel.findTask "t5" (durable (after (executeTask "t5") sampleStore)) = Some t'
     /\ status t' = IN_PROGRESS /\ updatedAt t' = 2000%Z)
  /\ (exists ids,
        ids = ["t0"]
        /\ result (executeTask "t4") sampleStore
           = Returned (textResponse
                         (CannotBeExecuted "write the printer" "t4" (BlockedByTasks ids)))
        /\ after (executeTask "t4") sampleStore = sampleStore).
Proof.
  split.
  - apply (executeTask_pending_gate sampleStore "t5" taskReady
             {| TaskModel.canExecute := true; TaskModel.blockedBy := Some [] |}
             eq_refl eq_refl eq_refl).
    reflexivity.
  - destruct (executeTask_pending_gate sampleStore "t4" taskBlocked
                {| TaskModel.canExecute := false; TaskModel.blockedBy := Some ["t0"] |}
                eq_refl eq_refl eq_refl) as (_ & _ & H & _).
    destruct (H eq_refl) as (ids & _ & _ & Hids & Hr & Hw).
    exists ids. split; [exact Hids|]. split; assumption.
Defined.





(** ** [updateTaskContent] *)

Lemma positiveInt_truthy (q : Q) :
  positiveInt (Some q) = true -> truthyNum (Some q) = true.
Proof.
  unfold positiveInt, truthyNum. intros H.
  apply andb_prop in H as [_ H]. apply negb_true_iff in H.
  apply negb_true_iff. destruct (Qeq_bool q 0) eqn:E; [|reflexivity].
  apply Qeq_bool_iff in E.
  assert (Hle : Qle_bool q 0 = true).
  { apply Qle_bool_iff. rewrite E. apply Qle_refl. }
  congruence.
Qed.

Lemma jsGt_lt (a b : Q) : jsGt (Some a) (Some b) = true <-> (b < a)%Q.
Proof.
  unfold jsGt. rewrite negb_true_iff. split.
  - intros H. apply Qnot_le_lt. intros Hle.
    apply Qle_bool_iff in Hle. congruence.
  - intros H. destruct (Qle_bool a b) eqn:E; [|reflexivity].
    apply Qle_bool_iff in E. exfalso. exact (Qlt_not_le _ _ H E).
Qed.

Lemma invalidLineRange_bad (file : RelatedFile) :
  relatedFileSchemaOk file = true ->
  invalidLineRange file = true <-> badLineRange file.
Proof.
  unfold relatedFileSchemaOk, invalidLineRange, badLineRange.
  intros H. apply andb_prop in H as [H He]. apply andb_prop in H as [_ Hs].
  destruct (lineStart file) as [a|], (lineEnd file) as [b|].
  - rewrite (positiveInt_truthy _ Hs), (positiveInt_truthy _ He).
    cbn [andb orb negb]. rewrite jsGt_lt. split.
    + intros Hlt. right. right. exists a, b. repeat split. exact Hlt.
    + intros [[_ Hn] | [[Hn _] | (a' & b' & Ha & Hb & Hlt)]]; try discriminate.
      injection Ha as <-. injection Hb as <-. exact Hlt.
  - rewrite (positiveInt_truthy _ Hs). simpl. split; [|reflexivity].
    intros _. left. split; [eexists; reflexivity | reflexivity].
  - rewrite (positiveInt_truthy _ He). simpl. split; [|reflexivity].
    intros _. right. left. split; [reflexivity | eexists; reflexivity].
  - simpl. split; [discriminate|].
    intros [[[? Hn] _] | [[_ [? Hn]] | (a' & b' & Ha & _)]]; discriminate.
Qed.

Lemma existsb_invalidLineRange (files : list RelatedFile) :
  forallb relatedFileSchemaOk files = true ->
  existsb invalidLineRange files = true
  <-> (exists file, In file files /\ badLineRange file).
Proof.
  intros Hok. rewrite forallb_forall in Hok. rewrite existsb_exists.
  split; intros (file & Hin & Hbad); exists file; (split; [exact Hin|]);
    apply (invalidLineRange_bad file (Hok file Hin)); exact Hbad.
Qed.

Lemma updateTaskContent_returns (taskId : string) (u : TaskUpdates) (w : World) :
  exists r, result (updateTaskContent taskId u) w = Returned r.
Proof.
  unfold updateTaskContent, TaskModel.getTaskById, TaskModel.updateTaskContent.
  run_handler.
  branches; eexists; reflexivity.
Qed.

(** C8. On a request that satisfies its schema, [updateTaskContent]
    answers with the line-number validation error, the store untouched,
    exactly when some supplied related file has exactly one of
    [lineStart] and [lineEnd], or has both with [lineStart > lineEnd];
    in particular a file with [lineStart] equal to [lineEnd] is not
    refused. *)
Theorem updateTaskContent_line_ranges
    (UUID_V4_REGEX : string -> bool) (w : World) (tid : string) (u : TaskUpdates) :
  updateTaskContentSchema UUID_V4_REGEX tid u = true ->
  ((exists files file,
      u_relatedFiles u = Some files /\ In file files /\ badLineRange file)
   <-> result (updateTaskContent tid u) w = Returned (lineNumberRejection tid))
  /\ (result (updateTaskContent tid u) w = Returned (lineNumberRejection tid) ->
      after (updateTaskContent tid u) w = w)
  /\ (forall r, result (updateTaskContent tid u) w = Returned r ->
        r <> lineNumberRejection tid -> p_validationError (content r) = None)
  /\ (forall file q,
        lineStart file = Some q -> lineEnd file = Some q -> ~ badLineRange file).
Proof.
  intros Hschema.
  unfold updateTaskContentSchema in Hschema. apply andb_prop in Hschema as [_ Hfiles].
  assert (Hcases :
    (exists files file,
        u_relatedFiles u = Some files /\ In file files /\ badLineRange file)
    <-> match u_relatedFiles u with
        | Some files => existsb invalidLineRange files
        | None => false
        end = true).
  { destruct (u_relatedFiles u) as [files|].
    - rewrite (existsb_invalidLineRange files Hfiles). split.
      + intros (fs & file & Hfs & Hin & Hbad). injection Hfs as <-. eauto.
      + intros (file & Hin & Hbad). eauto.
    - split; [intros (fs & file & Hfs & _); discriminate | discriminate]. }
  unfold result, after, updateTaskContent in *.
  destruct (match u_relatedFiles u with
            | Some files => existsb invalidLineRange files
            | None => false
            end) eqn:Hinvalid.
  - run_handler. split; [|split; [|split]].
    + split; [reflexivity | intros _; apply Hcases; reflexivity].
    + reflexivity.
    + intros r Hr Hne. injection Hr as <-. contradiction.
    + intros file q Hs He [[_ Hn] | [[Hn _] | (a & b & Ha & Hb & Hlt)]]; try congruence.
      rewrite Hs in Ha. rewrite He in Hb. injection Ha as <-. injection Hb as <-.
      exact (Qlt_irrefl _ Hlt).
  - split; [|split; [|split]].
    + split.
      * intros H. apply Hcases in H. discriminate.
      * intros H. exfalso. revert H.
        unfold TaskModel.getTaskById, TaskModel.updateTaskContent. run_handler.
        branches; discriminate.
    + unfold TaskModel.getTaskById, TaskModel.updateTaskContent. run_handler.
      branches; discriminate.
    + intros r Hr _. revert Hr.
      unfold TaskModel.getTaskById, TaskModel.updateTaskContent. run_handler.
      branches; intros Hr; injection Hr as <-; reflexivity.
    + intros file q Hs He [[_ Hn] | [[Hn _] | (a & b & Ha & Hb & Hlt)]]; try congruence.
      rewrite Hs in Ha. rewrite He in Hb. injection Ha as <-. injection Hb as <-.
      exact (Qlt_irrefl _ Hlt).
Qed.

Lemma updateTaskContent_line_ranges_witness :
  result (updateTaskContent "t1" (filesUpdate [fileReversed]))
         sampleStore
    = Returned (lineNumberRejection "t1")
  /\ after (updateTaskContent "t1" (filesUpdate [fileReversed]))
           sampleStore
     = sampleStore
  /\ ~ badLineRange (fileSingleLine).
Proof.
  destruct (updateTaskContent_line_ranges (fun _ => true) sampleStore "t1"
              (filesUpdate [fileReversed]) eq_refl)
    as (Hiff & Hw & _ & Heq).
  assert (Hr : result (updateTaskContent "t1"
                         (filesUpdate [fileReversed])) sampleStore
               = Returned (lineNumberRejection "t1")).
  { apply Hiff. exists [fileReversed], (fileReversed).
    split; [reflexivity|]. split; [left; reflexivity|].
    right. right. exists 5%Q, 3%Q. split; [reflexivity|]. split; [reflexivity|].
    unfold Qlt; simpl; lia. }
  split; [exact Hr|]. split; [exact (Hw Hr)|].
  apply (Heq _ 7%Q); reflexivity.
Defined.

(** The schema matters: the handler tests the line numbers for
    truthiness, so a start line of 0, which the schema excludes, would
    count as absent. *)
Lemma invalidLineRange_zero_start :
  relatedFileSchemaOk fileFromZero = false
  /\ invalidLineRange fileFromZero = true
  /\ ~ badLineRange fileFromZero.
Proof.
  split; [reflexivity|]. split; [reflexivity|].
  intros [[_ Hn] | [[Hn _] | (a & b & Ha & Hb & Hlt)]]; try discriminate.
  injection Ha as <-. injection Hb as <-. revert Hlt. unfold Qlt; simpl; lia.
Qed.

(** C10. A call of [updateTaskContent] that supplies none of name,
    description, notes, dependencies, relatedFiles, implementationGuide
    and verificationCriteria gets the empty-update answer, whatever the
    store holds (so without a lookup of the task), and the store is
    unchanged.  The answer is distinct: it is not the validation answer,
    and whenever the handler answers with [emptyUpdate] set, the answer
    is this one and nothing was written. *)
Theorem updateTaskContent_empty_update (w : World) (tid : string) :
  result (updateTaskContent tid noUpdates) w = Returned (emptyUpdateAnswer tid)
  /\ after (updateTaskContent tid noUpdates) w = w
  /\ emptyUpdateAnswer tid <> lineNumberRejection tid
  /\ (forall u r,
        result (updateTaskContent tid u) w = Returned r ->
        p_emptyUpdate (content r) = Some true ->
        r = emptyUpdateAnswer tid /\ after (updateTaskContent tid u) w = w).
Proof.
  split; [reflexivity|]. split; [reflexivity|]. split; [discriminate|].
  intros u r. unfold result, after, updateTaskContent.
  unfold TaskModel.getTaskById, TaskModel.updateTaskContent. run_handler.
  branches; intros Hr; injection Hr as <-; simpl; intros He;
    try discriminate; split; reflexivity.
Qed.

Lemma updateTaskContent_empty_update_witness :
  result (updateTaskContent "t1" noUpdates) sampleStore
    = Returned (emptyUpdateAnswer "t1")
  /\ after (updateTaskContent "t1" noUpdates) sampleStore = sampleStore
  /\ after (updateTaskContent "t1" blankNameUpdate) sampleStore = sampleStore.
Proof.
  destruct (updateTaskContent_empty_update sampleStore "t1") as (Hr & Hw & _ & Hflag).
  split; [exact Hr|]. split; [exact Hw|].
  apply (Hflag blankNameUpdate (emptyUpdateAnswer "t1")); reflexivity.
Defined.

(** ** The schema of the batch tool *)

Section TasksSchema.

Lemma ap_inr {A B : Type} (f : Zod.Parse (A -> B)) (x : Zod.Parse A) (b : B) :
  Zod.ap f x = inr b -> exists g a, f = inr g /\ x = inr a /\ b = g a.
Proof.
  destruct f as [e1|g], x as [e2|a]; simpl; intros H; try discriminate.
  injection H as <-. eauto.
Qed.

Lemma zString_inr (c : string -> option string) (p : list Zod.PathSeg)
    (v : option json) (s : string) :
  Zod.zString [c] p v = inr s -> v = Some (JStr s) /\ c s = None.
Proof.
  unfold Zod.zString. destruct v as [[]|]; try discriminate.
  simpl. destruct (c s0) eqn:E; simpl; intros H; [discriminate|].
  injection H as <-. split; [reflexivity | exact E].
Qed.

Lemma parseItems_inr {A : Type} (s : Zod.Schema A) (p : list Zod.PathSeg)
    (items : list json) :
  forall (i : nat) (l : list A),
    Zod.parseItems s p i items = inr l ->
    forall k j, items !! k = Some j ->
      exists a, l !! k = Some a /\ s (p ++ [Zod.Idx (i + k)]) (Some j) = inr a.
Proof.
  induction items as [|j0 rest IH]; intros i l H k j Hk.
  - destruct k; discriminate.
  - cbn [Zod.parseItems] in H. apply ap_inr in H as (g & tl & Hg & Htl & ->).
    apply ap_inr in Hg as (c & a & Hc & Ha & ->). injection Hc as <-.
    destruct k as [|k]; simpl in Hk.
    + injection Hk as <-. exists a. rewrite Nat.add_0_r. split; [reflexivity|exact Ha].
    + destruct (IH _ _ Htl k j Hk) as (a' & Hl & Hs).
      exists a'. split; [exact Hl|].
      replace (i + S k)%nat with (S i + k)%nat by lia. exact Hs.
Qed.

(** What a successful parse of one task says about its name and its
    description. *)
Lemma taskSchema_inr (p : list Zod.PathSeg) (fields : list (string * json))
    (t : RawTask) :
  taskSchema p (Some (JObj fields)) = inr t ->
  assoc "name" fields = Some (JStr (raw_name t))
  /\ (String.length (raw_name t) <= 100)%nat
  /\ assoc "description" fields = Some (JStr (raw_description t))
  /\ (10 <= String.length (raw_description t))%nat.
Proof.
  unfold taskSchema, zObject, Zod.field. intros H.
  repeat match type of H with
         | Zod.ap _ _ = inr _ =>
             let g := fresh "g" in
             let a := fresh "a" in
             let Hx := fresh "Hx" in
             apply ap_inr in H as (g & a & H & Hx & ->)
         end.
  injection H as <-. simpl.
  apply zString_inr in Hx5 as [Hn Hmax].
  apply zString_inr in Hx4 as [Hd Hmin].
  unfold Zod.max in Hmax. unfold Zod.min in Hmin.
  destruct (String.length a5 <=? 100)%nat eqn:E1; [|discriminate].
  destruct (10 <=? String.length a4)%nat eqn:E2; [|discriminate].
  apply Nat.leb_le in E1. apply Nat.leb_le in E2.
  repeat split; assumption.
Qed.

Lemma tasksSchema_inr (items : list json) (tasks : list RawTask) :
  tasksSchema [] (Some (JArr items)) = inr tasks ->
  forall k fields, items !! k = Some (JObj fields) ->
    exists t, tasks !! k = Some t
      /\ assoc "name" fields = Some (JStr (raw_name t))
      /\ (String.length (raw_name t) <= 100)%nat
      /\ assoc "description" fields = Some (JStr (raw_description t))
      /\ (10 <= String.length (raw_description t))%nat.
Proof.
  unfold tasksSchema, Zod.zArray. intros H k fields Hk.
  apply ap_inr in H as (g & l & Hg & Hl & ->).
  apply ap_inr in Hg as (c & u & Hc & _ & ->). injection Hc as <-.
  destruct (parseItems_inr _ _ _ _ _ Hl k _ Hk) as (t & Ht & Hs).
  exists t. split; [exact Ht|]. exact (taskSchema_inr _ _ _ Hs).
Qed.

(** The loop over the names finds nothing exactly when the names are
    pairwise distinct and none is in the set it started from. *)
Lemma duplicateName_false (tasks : list RawTask) :
  forall nameSet : gset string,
    duplicateName nameSet tasks = false
    <-> NoDup (map raw_name tasks)
        /\ (forall n, n ∈ map raw_name tasks -> n ∉ nameSet).
Proof.
  induction tasks as [|t rest IH]; intros nameSet; simpl.
  - split; [intros _; split; [constructor | intros n Hn; inversion Hn] | reflexivity].
  - destruct (bool_decide (raw_name t ∈ nameSet)) eqn:E.
    + apply bool_decide_eq_true in E. split; [discriminate|].
      intros [_ Hno]. exfalso. apply (Hno (raw_name t)); [left | exact E].
    + apply bool_decide_eq_false in E. rewrite IH. rewrite NoDup_cons. split.
      * intros [Hnd Hno]. split; [split; [|exact Hnd]|].
        -- intros Hin. apply (Hno _ Hin).
           apply elem_of_union_l, elem_of_singleton. reflexivity.
        -- intros n Hn. apply elem_of_cons in Hn as [-> | Hn]; [exact E|].
           intros Hin. apply (Hno _ Hn). apply elem_of_union_r. exact Hin.
      * intros [[Hnotin Hnd] Hno]. split; [exact Hnd|].
        intros n Hn Hin. apply elem_of_union in Hin as [Hin | Hin].
        -- apply elem_of_singleton in Hin as ->. contradiction.
        -- apply (Hno n); [right; exact Hn | exact Hin].
Qed.

Lemma duplicateName_empty (tasks : list RawTask) :
  duplicateName ∅ tasks = false <-> NoDup (map raw_name tasks).
Proof.
  rewrite duplicateName_false. split; [intros [H _]; exact H|].
  intros H. split; [exact H | intros n _; apply not_elem_of_empty].
Qed.

End TasksSchema.

(** ** [splitTasksRaw] *)

(** C2. A batch that holds two tasks of the same name is refused by
    [splitTasksRaw] in every update mode, with the duplicate-names answer
    when the batch passes the schema and with the schema's format error
    otherwise, and the store is exactly as before: nothing is created,
    updated or deleted, and nothing is cleared or backed up. *)
Theorem splitTasksRaw_duplicate_names
    (updateMode : UpdateMode) (items : list json) (gar : option string) (w : World)
    (i j : nat) (fi fj : list (string * json)) (n : string) :
  i <> j ->
  items !! i = Some (JObj fi) ->
  items !! j = Some (JObj fj) ->
  assoc "name" fi = Some (JStr n) ->
  assoc "name" fj = Some (JStr n) ->
  after (splitTasksRaw updateMode (Parsed (JArr items)) gar) w = w
  /\ (result (splitTasksRaw updateMode (Parsed (JArr items)) gar) w
        = Returned (textResponse DuplicateTaskNames)
      \/ exists issues,
           tasksSchema [] (Some (JArr items)) = inl issues
           /\ result (splitTasksRaw updateMode (Parsed (JArr items)) gar) w
              = Returned (textResponse (TasksFormatError issues)))
  /\ (forall tasks,
        tasksSchema [] (Some (JArr items)) = inr tasks ->
        result (splitTasksRaw updateMode (Parsed (JArr items)) gar) w
          = Returned (textResponse DuplicateTaskNames)).
Proof.
  intros Hij Hi Hj Hni Hnj.
  unfold result, after, splitTasksRaw.
  destruct (tasksSchema [] (Some (JArr items))) as [issues|tasks] eqn:Hschema.
  - run_handler. split; [reflexivity|]. split; [|discriminate].
    right. exists issues. split; reflexivity.
  - assert (Hdup : duplicateName ∅ tasks = true).
    { destruct (duplicateName ∅ tasks) eqn:E; [reflexivity|]. exfalso.
      apply duplicateName_empty in E.
      destruct (tasksSchema_inr _ _ Hschema i fi Hi) as (ti & Hti & Hti_name & _).
      destruct (tasksSchema_inr _ _ Hschema j fj Hj) as (tj & Htj & Htj_name & _).
      rewrite Hni in Hti_name. rewrite Hnj in Htj_name.
      injection Hti_name as Hti_name. injection Htj_name as Htj_name.
      apply Hij.
      apply (NoDup_lookup (map raw_name tasks) i j n E).
      - rewrite list_lookup_fmap, Hti. simpl. congruence.
      - rewrite list_lookup_fmap, Htj. simpl. congruence. }
    run_handler. rewrite Hdup. simpl.
    split; [reflexivity|]. split; [left; reflexivity|].
    intros tasks' H. reflexivity.
Qed.

Lemma splitTasksRaw_duplicate_names_witness :
  after (splitTasksRaw ClearAllTasks (Parsed batchTwice) None) sampleStore = sampleStore
  /\ result (splitTasksRaw ClearAllTasks (Parsed batchTwice) None) sampleStore
     = Returned (textResponse DuplicateTaskNames).
Proof.
  destruct (splitTasksRaw_duplicate_names ClearAllTasks
              [taskJson "lexer" tenChars []; taskJson "parser" tenChars ["lexer"];
               taskJson "lexer" tenChars []]
              None sampleStore 0 2 _ _ "lexer"
              ltac:(discriminate) eq_refl eq_refl eq_refl eq_refl)
    as (Hw & _ & Hr).
  split; [exact Hw|]. eapply Hr. reflexivity.
Defined.

(** C7, as the schema has it.  A candidate task whose name is longer than
    100 characters, or whose description is shorter than 10 characters,
    makes [splitTasksRaw] answer with the schema's format error before
    anything is written; the schema puts no lower bound on the length of
    the name. *)
Theorem splitTasksRaw_rejects_invalid_fields
    (updateMode : UpdateMode) (items : list json) (gar : option string) (w : World)
    (k : nat) (fields : list (string * json)) :
  items !! k = Some (JObj fields) ->
  (exists n, assoc "name" fields = Some (JStr n) /\ (100 < String.length n)%nat)
  \/ (exists d, assoc "description" fields = Some (JStr d)
                /\ (String.length d < 10)%nat) ->
  exists issues,
    result (splitTasksRaw updateMode (Parsed (JArr items)) gar) w
      = Returned (textResponse (TasksFormatError issues))
    /\ after (splitTasksRaw updateMode (Parsed (JArr items)) gar) w = w.
Proof.
  intros Hk Hbad.
  unfold result, after, splitTasksRaw.
  destruct (tasksSchema [] (Some (JArr items))) as [issues|tasks] eqn:Hschema.
  - run_handler. exists issues. split; reflexivity.
  - exfalso.
    destruct (tasksSchema_inr _ _ Hschema k fields Hk)
      as (t & _ & Hname & Hmax & Hdesc & Hmin).
    destruct Hbad as [(n & Hn & Hlen) | (d & Hd & Hlen)].
    + rewrite Hn in Hname. injection Hname as ->. lia.
    + rewrite Hd in Hdesc. injection Hdesc as ->. lia.
Qed.

Lemma splitTasksRaw_rejects_invalid_fields_witness :
  (exists issues,
     result (splitTasksRaw Append (Parsed batchShortDescription) None) sampleStore
       = Returned (textResponse (TasksFormatError issues))
     /\ after (splitTasksRaw Append (Parsed batchShortDescription) None) sampleStore
        = sampleStore)
  /\ (exists issues,
        result (splitTasksRaw Overwrite (Parsed batchLongName) None) sampleStore
          = Returned (textResponse (TasksFormatError issues))
        /\ after (splitTasksRaw Overwrite (Parsed batchLongName) None) sampleStore
           = sampleStore).
Proof.
  split.
  - apply (splitTasksRaw_rejects_invalid_fields Append
             [taskJson "printer" "too short" []] None sampleStore 0 _ eq_refl).
    right. exists "too short". split; [reflexivity|]. vm_compute. lia.
  - apply (splitTasksRaw_rejects_invalid_fields Overwrite
             [taskJson longName tenChars []] None sampleStore 0 _ eq_refl).
    left. exists longName. split; [reflexivity|]. vm_compute. lia.
Defined.

(** A batch whose only task has the empty name passes the schema and is
    reconciled: the task is created. *)
Lemma splitTasksRaw_empty_name_counterexample :
  assoc "name" [("name", JStr ""); ("description", JStr tenChars)] = Some (JStr "")
  /\ Zod.success (tasksSchema [] (Some batchNameless)) = true
  /\ (exists r,
        result (splitTasksRaw Append (Parsed batchNameless) None) (sampleWorld [])
          = Returned r
        /\ success <$> ephemeral r = Some true)
  /\ map name (durable (after (splitTasksRaw Append (Parsed batchNameless) None)
                              (sampleWorld [])))
     = [""].
Proof.
  split; [reflexivity|]. split; [reflexivity|].
  split; [eexists; split; reflexivity | reflexivity].
Qed.

Section ClearThenCreate.

Import TaskModel.

Lemma clearAllTasks_writable (w : World) :
  backupWritable w = true ->
  clearAllTasks w
    = (Returned {| clearSuccess := true; clearMessage := clearedMessage w;
                   backupFile := Some (backupPathAt (clock w)) |}, cleared w).
Proof.
  intros Hw. unfold clearAllTasks, cleared, clearedMessage. run_handler.
  rewrite Hw. reflexivity.
Qed.

Lemma clearAllTasks_unwritable (w : World) :
  backupWritable w = false ->
  exists m,
    clearAllTasks w
      = (Returned {| clearSuccess := false; clearMessage := m; backupFile := None |}, w).
Proof.
  intros Hw. unfold clearAllTasks. run_handler. rewrite Hw. eexists. reflexivity.
Qed.

(** A batch that fails has written nothing. *)
Lemma batchCreateOrUpdateTasks_atomic (taskDataList : list TaskInput)
    (updateMode : UpdateMode) (gar : option string) (w : World) (e : string) :
  result (batchCreateOrUpdateTasks taskDataList updateMode gar) w = Thrown e ->
  batchCreateOrUpdateTasks taskDataList updateMode gar w = (Thrown e, w).
Proof.
  unfold result, batchCreateOrUpdateTasks. run_handler.
  destruct (assignTargets _ _ _ _) as [targets n'].
  destruct (buildAll _ _ _ _ _) as [tok|built]; simpl; intros H.
  - injection H as <-. reflexivity.
  - discriminate.
Qed.

(** [splitTasksRaw] in mode [clearAllTasks] on a batch that passes the
    schema and has distinct names, by the outcome of the clear step and
    of the creation step. *)
Lemma splitTasksRaw_clear_refused (parsed : json) (tasks : list RawTask)
    (gar : option string) (w : World) :
  tasksSchema [] (Some parsed) = inr tasks ->
  NoDup (map raw_name tasks) ->
  backupWritable w = false ->
  exists m allTasks,
    splitTasksRaw ClearAllTasks (Parsed parsed) gar w
    = (Returned (mkResponse (SplitTasksPrompt ClearAllTasks [] allTasks) None
                   (Some {| success := false; message := m;
                            backupFilePath := None |})), w).
Proof.
  intros Hschema Hnd Hw. apply duplicateName_empty in Hnd.
  destruct (clearAllTasks_unwritable w Hw) as [m Hclear].
  unfold splitTasksRaw. rewrite Hschema. run_handler. rewrite Hnd.
  unfold applyUpdateMode. run_handler. rewrite Hclear. simpl.
  do 2 eexists. reflexivity.
Qed.

Lemma splitTasksRaw_clear_create_fails (parsed : json) (tasks : list RawTask)
    (gar : option string) (w : World) (e : string) :
  tasksSchema [] (Some parsed) = inr tasks ->
  NoDup (map raw_name tasks) ->
  backupWritable w = true ->
  result (batchCreateOrUpdateTasks (map convertTask tasks) Append gar) (cleared w)
    = Thrown e ->
  splitTasksRaw ClearAllTasks (Parsed parsed) gar w
  = (Returned (mkResponse (SplitTasksPrompt ClearAllTasks [] []) None
                 (Some {| success := false;
                          message := clearedMessage w ++ newline
                                     ++ "Error creating new tasks: " ++ e;
                          backupFilePath := Some (backupPathAt (clock w)) |})),
     cleared w).
Proof.
  intros Hschema Hnd Hw Hfail. apply duplicateName_empty in Hnd.
  apply batchCreateOrUpdateTasks_atomic in Hfail.
  unfold splitTasksRaw. rewrite Hschema. run_handler. rewrite Hnd.
  unfold applyUpdateMode. run_handler.
  rewrite (clearAllTasks_writable w Hw). simpl.
  rewrite Hfail. reflexivity.
Qed.

Lemma splitTasksRaw_clear_create_succeeds (parsed : json) (tasks : list RawTask)
    (gar : option string) (w : World) (created : list Task) :
  tasksSchema [] (Some parsed) = inr tasks ->
  NoDup (map raw_name tasks) ->
  backupWritable w = true ->
  result (batchCreateOrUpdateTasks (map convertTask tasks) Append gar) (cleared w)
    = Returned created ->
  exists r,
    result (splitTasksRaw ClearAllTasks (Parsed parsed) gar) w = Returned r
    /\ success <$> ephemeral r = Some true
    /\ backupFilePath <$> ephemeral r = Some (Some (backupPathAt (clock w))).
Proof.
  intros Hschema Hnd Hw Hok. apply duplicateName_empty in Hnd.
  unfold result in *. unfold splitTasksRaw. rewrite Hschema. run_handler. rewrite Hnd.
  unfold applyUpdateMode. run_handler.
  rewrite (clearAllTasks_writable w Hw). simpl.
  destruct (batchCreateOrUpdateTasks _ _ _ _) as [[c|e'] w2]; simpl in Hok;
    [|discriminate].
  simpl. eexists. repeat split.
Qed.

End ClearThenCreate.

(** C9. In mode [clearAllTasks], when the clear step succeeds and the
    creation step then fails, the clear stays committed (the durable set
    is empty and the backup holds the former set), the backup path is in
    the result, and the result reports the two steps in separate fields:
    [success] is false for the failed creation while [backupFilePath]
    names the backup of the committed clear; a refused clear gives no
    [backupFilePath], and a clear followed by a successful creation gives
    [success] true. *)
Theorem splitTasksRaw_clear_committed
    (parsed : json) (tasks : list RawTask) (gar : option string) (w : World)
    (e : string) :
  tasksSchema [] (Some parsed) = inr tasks ->
  NoDup (map raw_name tasks) ->
  backupWritable w = true ->
  result (TaskModel.batchCreateOrUpdateTasks (map convertTask tasks) Append gar)
         (cleared w)
    = Thrown e ->
  durable (after (splitTasksRaw ClearAllTasks (Parsed parsed) gar) w) = []
  /\ backups (after (splitTasksRaw ClearAllTasks (Parsed parsed) gar) w)
     = (TaskModel.backupPathAt (clock w), durable w) :: backups w
  /\ (exists r,
        result (splitTasksRaw ClearAllTasks (Parsed parsed) gar) w = Returned r
        /\ ephemeral r
           = Some {| success := false;
                     message := clearedMessage w ++ newline
                                ++ "Error creating new tasks: " ++ e;
                     backupFilePath := Some (TaskModel.backupPathAt (clock w)) |})
  /\ (forall w0, backupWritable w0 = false ->
        exists r0,
          result (splitTasksRaw ClearAllTasks (Parsed parsed) gar) w0 = Returned r0
          /\ success <$> ephemeral r0 = Some false
          /\ backupFilePath <$> ephemeral r0 = Some None
          /\ after (splitTasksRaw ClearAllTasks (Parsed parsed) gar) w0 = w0)
  /\ (forall w1 created, backupWritable w1 = true ->
        result (TaskModel.batchCreateOrUpdateTasks (map convertTask tasks) Append gar)
               (cleared w1)
          = Returned created ->
        exists r1,
          result (splitTasksRaw ClearAllTasks (Parsed parsed) gar) w1 = Returned r1
          /\ success <$> ephemeral r1 = Some true
          /\ backupFilePath <$> ephemeral r1
             = Some (Some (TaskModel.backupPathAt (clock w1)))).
Proof.
  intros Hschema Hnd Hw Hfail.
  pose proof (splitTasksRaw_clear_create_fails _ _ _ _ _ Hschema Hnd Hw Hfail) as Hrun.
  split; [|split; [|split; [|split]]].
  - unfold after. rewrite Hrun. reflexivity.
  - unfold after. rewrite Hrun. reflexivity.
  - unfold result. rewrite Hrun. eexists. split; reflexivity.
  - intros w0 Hw0.
    destruct (splitTasksRaw_clear_refused _ _ gar _ Hschema Hnd Hw0) as (m & a & H).
    unfold result, after. rewrite H. simpl. eexists. repeat split.
  - intros w1 created Hw1 Hok.
    exact (splitTasksRaw_clear_create_succeeds _ _ _ _ _ Hschema Hnd Hw1 Hok).
Qed.

Lemma splitTasksRaw_clear_committed_witness :
  durable (after (splitTasksRaw ClearAllTasks (Parsed batchUnresolved) None) sampleStore)
    = []
  /\ backups (after (splitTasksRaw ClearAllTasks (Parsed batchUnresolved) None)
                    sampleStore)
     = [("tasks_backup_2000.json", durable sampleStore)]
  /\ exists r,
       result (splitTasksRaw ClearAllTasks (Parsed batchUnresolved) None) sampleStore
         = Returned r
       /\ success <$> ephemeral r = Some false
       /\ backupFilePath <$> ephemeral r = Some (Some "tasks_backup_2000.json").
Proof.
  destruct (splitTasksRaw_clear_committed batchUnresolved tasksUnresolved None
              sampleStore "DependencyNotFound: no such task"
              eq_refl ltac:(apply NoDup_singleton) eq_refl eq_refl)
    as (Hd & Hb & (r & Hr & He) & _).
  split; [exact Hd|]. split; [exact Hb|].
  exists r. split; [exact Hr|]. rewrite He. split; reflexivity.
Defined.

(** ** [loadTaskRelatedFiles] *)

Section FileLoader.

Lemma append_assoc (a b c : string) : ((a ++ b) ++ c = a ++ (b ++ c))%string.
Proof.
  induction a as [|ch a IH]; [reflexivity|].
  change (String ch ((a ++ b) ++ c) = String ch (a ++ (b ++ c)))%string.
  f_equal. exact IH.
Qed.

Lemma append_empty_r (a : string) : (a ++ "" = a)%string.
Proof.
  induction a as [|ch a IH]; [reflexivity|].
  change (String ch (a ++ "") = String ch a)%string. f_equal. exact IH.
Qed.

Lemma length_append (a b : string) :
  String.length (a ++ b)%string = (String.length a + String.length b)%nat.
Proof.
  induction a as [|ch a IH]; [reflexivity|].
  change (S (String.length (a ++ b)%string) = S (String.length a + String.length b)).
  f_equal. exact IH.
Qed.

Lemma insertByPriority_perm (file : RelatedFile) (l : list RelatedFile) :
  Permutation (file :: l) (insertByPriority file l).
Proof.
  induction l as [|g rest IH]; simpl; [reflexivity|].
  destruct (priorityOrder (type file) <=? priorityOrder (type g))%nat; [reflexivity|].
  rewrite <- IH. apply perm_swap.
Qed.

Lemma insertByPriority_sorted (file : RelatedFile) (l : list RelatedFile) :
  Sorted (fun a b => priorityOrder (type a) <= priorityOrder (type b))%nat l ->
  Sorted (fun a b => priorityOrder (type a) <= priorityOrder (type b))%nat
         (insertByPriority file l).
Proof.
  induction l as [|g rest IH]; simpl; intros Hs.
  - repeat constructor.
  - destruct (priorityOrder (type file) <=? priorityOrder (type g))%nat eqn:E.
    + apply Nat.leb_le in E. constructor; [exact Hs | constructor; exact E].
    + apply Nat.leb_gt in E. inversion Hs as [|? ? Hrest Hhd]; subst.
      constructor; [apply IH; exact Hrest|].
      destruct rest as [|h rest']; simpl.
      * constructor. lia.
      * destruct (priorityOrder (type file) <=? priorityOrder (type h))%nat;
          constructor; [lia|]. inversion Hhd; subst. assumption.
Qed.

(** Files of one type keep their order: an inserted file goes before the
    files of its own type. *)
Lemma insertByPriority_filter (t : RelatedFileType) (file : RelatedFile)
    (l : list RelatedFile) :
  Sorted (fun a b => priorityOrder (type a) <= priorityOrder (type b))%nat l ->
  List.filter (fun f => bool_decide (type f = t)) (insertByPriority file l)
  = List.filter (fun f => bool_decide (type f = t)) (file :: l).
Proof.
  induction l as [|g rest IH]; intros Hs; [reflexivity|].
  cbn [insertByPriority].
  destruct (priorityOrder (type file) <=? priorityOrder (type g))%nat eqn:E;
    [reflexivity|].
  apply Nat.leb_gt in E.
  inversion Hs as [|? ? Hrest Hhd]; subst.
  cbn [List.filter]. rewrite (IH Hrest). cbn [List.filter].
  destruct (bool_decide (type g = t)) eqn:Eg, (bool_decide (type file = t)) eqn:Ef;
    try reflexivity.
  apply bool_decide_eq_true in Eg. apply bool_decide_eq_true in Ef.
  rewrite Eg, Ef in E. lia.
Qed.

Lemma sortedFiles_perm (relatedFiles : list RelatedFile) :
  Permutation relatedFiles (sortedFiles relatedFiles).
Proof.
  unfold sortedFiles. induction relatedFiles as [|file rest IH]; simpl; [reflexivity|].
  rewrite <- insertByPriority_perm. constructor. exact IH.
Qed.

(** X1. The files are processed in a stable order by priority: the sorted
    list is a rearrangement of the given one, types come in the order
    TO_MODIFY, REFERENCE, DEPENDENCY, CREATE, OTHER, and the files of one
    type keep the order they were given in. *)
Theorem sortedFiles_stable (relatedFiles : list RelatedFile) :
  Permutation relatedFiles (sortedFiles relatedFiles)
  /\ Sorted (fun a b => priorityOrder (type a) <= priorityOrder (type b))%nat
            (sortedFiles relatedFiles)
  /\ (forall t,
        List.filter (fun f => bool_decide (type f = t)) (sortedFiles relatedFiles)
        = List.filter (fun f => bool_decide (type f = t)) relatedFiles).
Proof.
  unfold sortedFiles.
  induction relatedFiles as [|file rest (Hp & Hs & Hf)]; simpl.
  - split; [reflexivity|]. split; [constructor | reflexivity].
  - split; [|split].
    + rewrite <- insertByPriority_perm. constructor. exact Hp.
    + apply insertByPriority_sorted. exact Hs.
    + intros t. rewrite (insertByPriority_filter t file _ Hs).
      cbn [List.filter]. rewrite (Hf t). reflexivity.
Qed.

Lemma list_sum_cons (a : nat) (l : list nat) : list_sum (a :: l) = (a + list_sum l)%nat.
Proof. reflexivity. Qed.

Lemma fileBlock_length (numberToString : Q -> string) (file : RelatedFile) :
  String.length (fileBlock numberToString file)
  = (fileCost numberToString file + 2)%nat.
Proof.
  unfold fileBlock, fileCost. rewrite !length_append.
  change (String.length "```") with 3%nat.
  change (String.length newline) with 1%nat. lia.
Qed.

Lemma loadLoop_prefix (numberToString : Q -> string) (maxTotalLength : Z)
    (files : list RelatedFile) :
  forall (totalContent filesSummary : string) (totalLength : nat),
  exists processed skipped,
    files = processed ++ skipped
    /\ loadLoop numberToString maxTotalLength files totalContent filesSummary totalLength
       = {| loadedContent :=
              (totalContent
               ++ concatStrings (map (fileBlock numberToString) processed))%string;
            loadedSummary :=
              (filesSummary
               ++ concatStrings (map (fileSummaryLine numberToString) processed)
               ++ match skipped with [] => "" | _ => limitReached end)%string |}
    /\ (skipped <> [] ->
        (maxTotalLength
         <= Z.of_nat (totalLength
                      + list_sum (map (fileCost numberToString) processed)))%Z)
    /\ (processed <> [] ->
        (Z.of_nat (totalLength
                   + list_sum (map (fileCost numberToString) (removelast processed)))
         < maxTotalLength)%Z).
Proof.
  induction files as [|file rest IH]; intros tc fs tl.
  - exists [], []. simpl. rewrite !append_empty_r.
    split; [reflexivity|]. split; [reflexivity|]. split; intros H; contradiction.
  - cbn [loadLoop].
    destruct (maxTotalLength <=? Z.of_nat tl)%Z eqn:E.
    + apply Z.leb_le in E. exists [], (file :: rest). simpl. rewrite append_empty_r.
      split; [reflexivity|]. split; [reflexivity|].
      split; [intros _; lia | intros H; contradiction].
    + apply Z.leb_gt in E.
      destruct (IH (tc ++ fileBlock numberToString file)%string
                   (fs ++ fileSummaryLine numberToString file)%string
                   (tl + String.length (generateFileInfo numberToString file)
                    + String.length (fileHeader numberToString file) + 8)%nat)
        as (processed & skipped & Hsplit & Hrun & Hskip & Hlast).
      exists (file :: processed), skipped.
      split; [rewrite Hsplit; reflexivity|].
      split; [rewrite Hrun; simpl; rewrite !append_assoc; reflexivity|].
      split.
      * intros Hne. specialize (Hskip Hne). cbn [map].
        rewrite list_sum_cons. unfold fileCost at 1. lia.
      * intros _. destruct processed as [|g processed'].
        -- cbn [removelast map]. change (list_sum []) with 0%nat. lia.
        -- specialize (Hlast ltac:(discriminate)).
           change (removelast (file :: g :: processed'))
             with (file :: removelast (g :: processed')).
           cbn [map]. rewrite list_sum_cons. unfold fileCost at 1. lia.
Qed.

(** The loaded files and the files left out. *)
Lemma loadTaskRelatedFiles_split (numberToString : Q -> string)
    (relatedFiles : list RelatedFile) (maxTotalLength : Z) :
  relatedFiles <> [] ->
  exists processed skipped,
    sortedFiles relatedFiles = processed ++ skipped
    /\ loadTaskRelatedFiles numberToString relatedFiles maxTotalLength
       = {| loadedContent := concatStrings (map (fileBlock numberToString) processed);
            loadedSummary :=
              (summaryHeader relatedFiles
               ++ concatStrings (map (fileSummaryLine numberToString) processed)
               ++ match skipped with [] => "" | _ => limitReached end)%string |}
    /\ (skipped <> [] ->
        (maxTotalLength
         <= Z.of_nat (list_sum (map (fileCost numberToString) processed)))%Z)
    /\ (processed <> [] ->
        (Z.of_nat (list_sum (map (fileCost numberToString) (removelast processed)))
         < maxTotalLength)%Z).
Proof.
  intros Hne.
  destruct (loadLoop_prefix numberToString maxTotalLength (sortedFiles relatedFiles)
              "" (summaryHeader relatedFiles) 0)
    as (processed & skipped & Hsplit & Hrun & Hskip & Hlast).
  exists processed, skipped.
  split; [exact Hsplit|]. split; [|split; [exact Hskip | exact Hlast]].
  destruct relatedFiles; [contradiction | exact Hrun].
Qed.

(** X2. [loadTaskRelatedFiles] loads a prefix of the sorted files: the
    content is the blocks of the loaded files, the summary is the header
    followed by one line per loaded file and, when a file is left out, by
    the limit notice; a file is left out only once the running total has
    reached [maxTotalLength], and each loaded file started below it.  Each
    loaded file makes the content two characters longer than the total
    accounts for. *)
Theorem loadTaskRelatedFiles_prefix (numberToString : Q -> string)
    (relatedFiles : list RelatedFile) (maxTotalLength : Z) :
  relatedFiles <> [] ->
  exists processed skipped,
    sortedFiles relatedFiles = processed ++ skipped
    /\ loadedContent (loadTaskRelatedFiles numberToString relatedFiles maxTotalLength)
       = concatStrings (map (fileBlock numberToString) processed)
    /\ loadedSummary (loadTaskRelatedFiles numberToString relatedFiles maxTotalLength)
       = (summaryHeader relatedFiles
          ++ concatStrings (map (fileSummaryLine numberToString) processed)
          ++ match skipped with [] => "" | _ => limitReached end)%string
    /\ (skipped <> [] ->
        (maxTotalLength
         <= Z.of_nat (list_sum (map (fileCost numberToString) processed)))%Z)
    /\ (processed <> [] ->
        (Z.of_nat (list_sum (map (fileCost numberToString) (removelast processed)))
         < maxTotalLength)%Z)
    /\ String.length
         (loadedContent (loadTaskRelatedFiles numberToString relatedFiles maxTotalLength))
       = (list_sum (map (fileCost numberToString) processed)
          + 2 * length processed)%nat.
Proof.
  intros Hne.
  destruct (loadTaskRelatedFiles_split numberToString relatedFiles maxTotalLength Hne)
    as (processed & skipped & Hsplit & Hrun & Hskip & Hlast).
  exists processed, skipped. rewrite Hrun. cbn [loadedContent loadedSummary].
  split; [exact Hsplit|]. split; [reflexivity|]. split; [reflexivity|].
  split; [exact Hskip|]. split; [exact Hlast|].
  clear. induction processed as [|f l IH]; [reflexivity|].
  cbn [map length]. rewrite list_sum_cons.
  change (concatStrings (fileBlock numberToString f :: map (fileBlock numberToString) l))
    with (fileBlock numberToString f
          ++ concatStrings (map (fileBlock numberToString) l))%string.
  rewrite length_append, fileBlock_length, IH. lia.
Qed.

Lemma loadTaskRelatedFiles_prefix_witness :
  exists processed skipped,
    sortedFiles sampleFiles = processed ++ skipped
    /\ loadedContent (loadTaskRelatedFiles showInteger sampleFiles 200)
       = concatStrings (map (fileBlock showInteger) processed)
    /\ skipped <> [].
Proof.
  destruct (loadTaskRelatedFiles_prefix showInteger sampleFiles 200
              ltac:(discriminate))
    as (processed & skipped & Hsplit & Hc & Hs & Hskip & Hlast & _).
  exists processed, skipped. split; [exact Hsplit|]. split; [exact Hc|].
  intros ->. rewrite app_nil_r in Hsplit. subst processed.
  specialize (Hlast ltac:(discriminate)). vm_compute in Hlast. discriminate.
Defined.

End FileLoader.

Lemma list_sum_perm (l l' : list nat) : Permutation l l' -> list_sum l = list_sum l'.
Proof.
  induction 1 as [|x l l' _ IH|x y l|l l' l'' _ IH1 _ IH2].
  - reflexivity.
  - rewrite !list_sum_cons, IH. reflexivity.
  - rewrite !list_sum_cons. lia.
  - congruence.
Qed.

Lemma sortedFiles_cost (numberToString : Q -> string) (relatedFiles : list RelatedFile) :
  list_sum (map (fileCost numberToString) (sortedFiles relatedFiles))
  = list_sum (map (fileCost numberToString) relatedFiles).
Proof.
  symmetry. apply list_sum_perm, Permutation_map.
  apply sortedFiles_perm.
Qed.

(** X3. When the costs of all files together stay within
    [maxTotalLength], every file is loaded, in sorted order, and the
    summary carries no limit notice. *)
Theorem loadTaskRelatedFiles_within_budget (numberToString : Q -> string)
    (relatedFiles : list RelatedFile) (maxTotalLength : Z) :
  relatedFiles <> [] ->
  (Z.of_nat (list_sum (map (fileCost numberToString) relatedFiles))
   <= maxTotalLength)%Z ->
  loadedContent (loadTaskRelatedFiles numberToString relatedFiles maxTotalLength)
    = concatStrings (map (fileBlock numberToString) (sortedFiles relatedFiles))
  /\ loadedSummary (loadTaskRelatedFiles numberToString relatedFiles maxTotalLength)
     = (summaryHeader relatedFiles
        ++ concatStrings
             (map (fileSummaryLine numberToString) (sortedFiles relatedFiles)))%string.
Proof.
  intros Hne Hbudget.
  destruct (loadTaskRelatedFiles_split numberToString relatedFiles maxTotalLength Hne)
    as (processed & skipped & Hsplit & Hrun & Hskip & _).
  destruct skipped as [|g skipped].
  - rewrite app_nil_r in Hsplit. rewrite Hsplit, Hrun.
    cbn [loadedContent loadedSummary]. rewrite append_empty_r.
    split; reflexivity.
  - exfalso. specialize (Hskip ltac:(discriminate)).
    rewrite <- (sortedFiles_cost numberToString) in Hbudget.
    rewrite Hsplit, map_app, list_sum_app in Hbudget.
    cbn [map] in Hbudget. rewrite list_sum_cons in Hbudget.
    unfold fileCost at 2 in Hbudget. lia.
Qed.

Lemma loadTaskRelatedFiles_within_budget_witness :
  loadedSummary (loadTaskRelatedFiles showInteger sampleFiles defaultMaxTotalLength)
  = (summaryHeader sampleFiles
     ++ concatStrings
          (map (fileSummaryLine showInteger)
               [fileToModify; fileForReference; fileToCreate]))%string.
Proof.
  apply (loadTaskRelatedFiles_within_budget showInteger sampleFiles
           defaultMaxTotalLength ltac:(discriminate)).
  vm_compute. discriminate.
Defined.

(** X4. With a limit of zero or less nothing is loaded: for a non-empty
    list the content is empty and the summary is the header followed by
    the limit notice. *)
Theorem loadTaskRelatedFiles_no_budget (numberToString : Q -> string)
    (relatedFiles : list RelatedFile) (maxTotalLength : Z) :
  relatedFiles <> [] ->
  (maxTotalLength <= 0)%Z ->
  loadedContent (loadTaskRelatedFiles numberToString relatedFiles maxTotalLength) = ""
  /\ loadedSummary (loadTaskRelatedFiles numberToString relatedFiles maxTotalLength)
     = (summaryHeader relatedFiles ++ limitReached)%string.
Proof.
  intros Hne Hmax.
  destruct (loadTaskRelatedFiles_split numberToString relatedFiles maxTotalLength Hne)
    as (processed & skipped & Hsplit & Hrun & _ & Hlast).
  destruct processed as [|f processed].
  - rewrite Hrun. cbn [loadedContent loadedSummary]. split; [reflexivity|].
    destruct skipped as [|g skipped]; [|reflexivity].
    exfalso. simpl in Hsplit.
    pose proof (sortedFiles_perm relatedFiles) as Hp.
    rewrite Hsplit in Hp. apply Permutation_nil_r in Hp. contradiction.
  - exfalso. specialize (Hlast ltac:(discriminate)). lia.
Qed.

Lemma loadTaskRelatedFiles_no_budget_witness :
  loadedContent (loadTaskRelatedFiles showInteger sampleFiles 0) = ""
  /\ loadedSummary (loadTaskRelatedFiles showInteger sampleFiles 0)
     = (summaryHeader sampleFiles ++ limitReached)%string.
Proof.
  apply (loadTaskRelatedFiles_no_budget showInteger sampleFiles 0);
    [discriminate | lia].
Defined.

(** ** What [tasksSchema] accepts *)

Section SchemaAcceptance.

Lemma success_ap {A B : Type} (f : Zod.Parse (A -> B)) (x : Zod.Parse A) :
  Zod.success (Zod.ap f x) = Zod.success f && Zod.success x.
Proof. destruct f, x; reflexivity. Qed.

Lemma zString_success (c : string -> option string) (p : list Zod.PathSeg)
    (v : option json) :
  Zod.success (Zod.zString [c] p v) = true <-> isStr (fun s => c s = None) v.
Proof.
  unfold Zod.zString, isStr. split.
  - destruct v as [[]|]; try discriminate. simpl.
    destruct (c s) eqn:E; simpl; [discriminate|]. eauto.
  - intros (s & -> & Hc). simpl. rewrite Hc. reflexivity.
Qed.

Lemma zString_any_success (p : list Zod.PathSeg) (v : option json) :
  Zod.success (Zod.zString [] p v) = true <-> isStr (fun _ => True) v.
Proof.
  unfold Zod.zString, isStr. split.
  - destruct v as [[]|]; try discriminate. eauto.
  - intros (s & -> & _). reflexivity.
Qed.

Lemma zPositiveInt_success (p : list Zod.PathSeg) (v : option json) :
  Zod.success (Zod.zPositiveInt p v) = true <-> isPositiveInteger v.
Proof.
  unfold Zod.zPositiveInt, isPositiveInteger. split.
  - destruct v as [[]|]; try discriminate.
    destruct (Zod.isInteger q) eqn:Ei, (Qle_bool q 0) eqn:Ep; simpl;
      try discriminate.
    intros _. exists q. split; [reflexivity|]. split; [exact Ei|].
    apply Qnot_le_lt. intros Hle. apply Qle_bool_iff in Hle. congruence.
  - intros (q & -> & Hi & Hp). rewrite Hi.
    destruct (Qle_bool q 0) eqn:Ep; [|reflexivity].
    apply Qle_bool_iff in Ep. exfalso. exact (Qlt_not_le _ _ Hp Ep).
Qed.

Lemma optional_success {A : Type} (s : Zod.Schema A) (P : option json -> Prop)
    (p : list Zod.PathSeg) (v : option json) :
  (Zod.success (s p v) = true <-> P v) ->
  Zod.success (Zod.optional s p v) = true <-> optionally P v.
Proof.
  intros Hs. unfold Zod.optional, optionally. destruct v as [j|].
  - rewrite success_ap. simpl. rewrite Hs. split; [tauto|].
    intros [H|H]; [discriminate | exact H].
  - split; [left; reflexivity | reflexivity].
Qed.

Lemma parseItems_success {A : Type} (s : Zod.Schema A) (P : json -> Prop)
    (items : list json) :
  (forall p j, Zod.success (s p (Some j)) = true <-> P j) ->
  forall p i, Zod.success (Zod.parseItems s p i items) = true <-> Forall P items.
Proof.
  intros Hs. induction items as [|j rest IH]; intros p i.
  - split; [constructor | reflexivity].
  - cbn [Zod.parseItems]. rewrite !success_ap, andb_true_iff. simpl.
    rewrite Hs, IH. split.
    + intros [Hj Hrest]. constructor; assumption.
    + intros H. inversion H; subst. split; assumption.
Qed.

Lemma zArray_success {A : Type} (s : Zod.Schema A) (P : json -> Prop)
    (p : list Zod.PathSeg) (v : option json) :
  (forall p j, Zod.success (s p (Some j)) = true <-> P j) ->
  Zod.success (Zod.zArray s None p v) = true <-> isArrayOf P v.
Proof.
  intros Hs. unfold Zod.zArray, isArrayOf. destruct v as [[]|].
  all: try (split; [discriminate | intros (l & H & _); discriminate]).
  rewrite !success_ap. simpl.
  rewrite (parseItems_success s P items Hs). split; [eauto|].
  intros (l & H & Hall). injection H as <-. exact Hall.
Qed.

Lemma zRelatedFileType_success (p : list Zod.PathSeg) (v : option json) :
  Zod.success (zRelatedFileType p v) = true <-> isRelatedFileType v.
Proof.
  unfold zRelatedFileType, isRelatedFileType. split.
  - destruct v as [[]|]; try discriminate.
    repeat match goal with
           | |- context [String.eqb ?a ?b] =>
               destruct (String.eqb_spec a b) as [->|]
           end; try discriminate; intros _.
    + exists TO_MODIFY. reflexivity.
    + exists REFERENCE. reflexivity.
    + exists CREATE. reflexivity.
    + exists DEPENDENCY. reflexivity.
    + exists OTHER. reflexivity.
  - intros (t & ->). destruct t; reflexivity.
Qed.

Lemma relatedFileSchema_success (p : list Zod.PathSeg) (j : json) :
  Zod.success (relatedFileSchema p (Some j)) = true <-> relatedFileAccepted j.
Proof.
  unfold relatedFileSchema, zObject, relatedFileAccepted.
  destruct j as [| | | | |o].
  all: try (split; [discriminate | intros (o' & H & _); discriminate]).
  unfold Zod.field. rewrite !success_ap, !andb_true_iff. simpl.
  rewrite !zString_success, zRelatedFileType_success.
  rewrite !(optional_success _ isPositiveInteger) by apply zPositiveInt_success.
  assert (Hmin : forall v,
             isStr (fun s => Zod.min 1 "File path cannot be empty" s = None) v
             <-> isStr (fun s => 1 <= String.length s)%nat v).
  { intros v. unfold isStr, Zod.min. split; intros (s & Hv & Hs); exists s;
      (split; [exact Hv|]); destruct (Nat.leb_spec 1 (String.length s));
      try assumption; try reflexivity; try discriminate; lia. }
  assert (Hmin' : forall v,
             isStr (fun s => Zod.min 1 "File description cannot be empty" s = None) v
             <-> isStr (fun s => 1 <= String.length s)%nat v).
  { intros v. unfold isStr, Zod.min. split; intros (s & Hv & Hs); exists s;
      (split; [exact Hv|]); destruct (Nat.leb_spec 1 (String.length s));
      try assumption; try reflexivity; try discriminate; lia. }
  rewrite Hmin, Hmin'. split.
  - intros H. exists o. tauto.
  - intros (o' & Ho & H). injection Ho as <-. tauto.
Qed.

(** X5. The schema of a related file accepts exactly the objects with a
    non-empty [path], a [type] among the five file types, a non-empty
    [description], and [lineStart] and [lineEnd] each absent or a
    positive integer; the two line numbers are checked one by one, never
    against each other; [undefined] is refused. *)
Theorem relatedFileSchema_accepts (p : list Zod.PathSeg) (v : option json) :
  Zod.success (relatedFileSchema p v) = true
  <-> exists j, v = Some j /\ relatedFileAccepted j.
Proof.
  destruct v as [j|].
  - rewrite relatedFileSchema_success. split.
    + intros H. exists j. split; [reflexivity | exact H].
    + intros (j' & Hj & H). injection Hj as <-. exact H.
  - split; [discriminate | intros (j & H & _); discriminate].
Qed.

Lemma taskSchema_accepts (p : list Zod.PathSeg) (j : json) :
  Zod.success (taskSchema p (Some j)) = true <-> taskAccepted j.
Proof.
  unfold taskSchema, zObject, taskAccepted.
  destruct j as [| | | | |o].
  all: try (split; [discriminate | intros (o' & H & _); discriminate]).
  unfold Zod.field. rewrite !success_ap, !andb_true_iff. simpl.
  rewrite !zString_success, zString_any_success.
  rewrite !(optional_success (Zod.zString []) (isStr (fun _ => True)))
    by apply zString_any_success.
  rewrite (optional_success (Zod.zArray (Zod.zString []) None)
             (isArrayOf (fun d => exists s, d = JStr s))).
  2:{ apply zArray_success. intros p' d. rewrite zString_any_success.
      unfold isStr. split.
      - intros (s & Hs & _). injection Hs as ->. eauto.
      - intros (s & ->). eauto. }
  rewrite (optional_success (Zod.zArray relatedFileSchema None)
             (isArrayOf relatedFileAccepted)).
  2:{ apply zArray_success. intros p' d. apply relatedFileSchema_success. }
  assert (Hmax : forall m v,
             isStr (fun s => Zod.max 100 m s = None) v
             <-> isStr (fun s => String.length s <= 100)%nat v).
  { intros m v. unfold isStr, Zod.max. split; intros (s & Hv & Hs); exists s;
      (split; [exact Hv|]); destruct (Nat.leb_spec (String.length s) 100);
      try assumption; try reflexivity; try discriminate; lia. }
  assert (Hmin : forall m v,
             isStr (fun s => Zod.min 10 m s = None) v
             <-> isStr (fun s => 10 <= String.length s)%nat v).
  { intros m v. unfold isStr, Zod.min. split; intros (s & Hv & Hs); exists s;
      (split; [exact Hv|]); destruct (Nat.leb_spec 10 (String.length s));
      try assumption; try reflexivity; try discriminate; lia. }
  rewrite Hmax, Hmin. split.
  - intros H. exists o. tauto.
  - intros (o' & Ho & H). injection Ho as <-. tauto.
Qed.

Lemma tasksSchema_accepts (parsed : json) :
  Zod.success (tasksSchema [] (Some parsed)) = true <-> batchAccepted parsed.
Proof.
  unfold tasksSchema, Zod.zArray, batchAccepted. destruct parsed as [| | | |items|].
  all: try (split; [discriminate | intros (l & H & _); discriminate]).
  rewrite !success_ap, !andb_true_iff.
  rewrite (parseItems_success taskSchema taskAccepted items taskSchema_accepts).
  destruct items as [|j rest]; simpl.
  - split; [intros [[_ H] _]; discriminate | intros (l & H & Hne & _)].
    injection H as <-. contradiction.
  - split.
    + intros [_ H]. exists (j :: rest).
      split; [reflexivity|]. split; [discriminate|exact H].
    + intros (l & H & _ & Hall). injection H as <-. tauto.
Qed.

(** The answers of [splitTasksRaw] past the schema are never the format
    error. *)
Lemma splitTasksRaw_past_schema (updateMode : UpdateMode) (parsed : json)
    (tasks : list RawTask) (gar : option string) (w : World) :
  tasksSchema [] (Some parsed) = inr tasks ->
  forall issues,
    result (splitTasksRaw updateMode (Parsed parsed) gar) w
    <> Returned (textResponse (TasksFormatError issues)).
Proof.
  intros Hschema issues. unfold result, splitTasksRaw. rewrite Hschema.
  run_handler. destruct (duplicateName ∅ tasks); [discriminate|].
  destruct (applyUpdateMode _ _ _ w) as [[st|e] w1]; simpl; discriminate.
Qed.

(** X6. Whatever the mode and the store, [splitTasksRaw] answers with the
    schema's format error exactly when the parsed value is not a
    non-empty array of accepted tasks (name a string of at most 100
    characters, description a string of at least 10, implementationGuide
    a string, the optional fields absent or well-typed, [null] not being
    absent), and that answer leaves the store unchanged. *)
Theorem splitTasksRaw_format_error
    (updateMode : UpdateMode) (parsed : json) (gar : option string) (w : World) :
  ((exists issues,
      result (splitTasksRaw updateMode (Parsed parsed) gar) w
        = Returned (textResponse (TasksFormatError issues)))
   <-> ~ batchAccepted parsed)
  /\ (~ batchAccepted parsed ->
      after (splitTasksRaw updateMode (Parsed parsed) gar) w = w).
Proof.
  rewrite <- tasksSchema_accepts.
  destruct (tasksSchema [] (Some parsed)) as [issues|tasks] eqn:Hschema.
  - assert (Hrun : splitTasksRaw updateMode (Parsed parsed) gar w
                   = (Returned (textResponse (TasksFormatError issues)), w)).
    { unfold splitTasksRaw. rewrite Hschema. reflexivity. }
    unfold result, after. rewrite Hrun. split.
    + split; [intros _ H; discriminate H | intros _; eexists; reflexivity].
    + intros _. reflexivity.
  - split.
    + split; [|intros H; exfalso; apply H; reflexivity].
      intros (issues & H). exfalso.
      exact (splitTasksRaw_past_schema _ _ _ _ _ Hschema issues H).
    + intros H. exfalso. apply H. reflexivity.
Qed.

End SchemaAcceptance.

(** X7. The schema of a related file cannot tell the start line from the
    end line: an object is accepted exactly when the object with the two
    line numbers exchanged is, so a range given backwards passes the
    batch tool although [updateTaskContent] refuses it. *)
Theorem relatedFileSchema_lines_exchanged
    (p : list Zod.PathSeg) (o o' : list (string * json)) :
  assoc "path" o' = assoc "path" o ->
  assoc "type" o' = assoc "type" o ->
  assoc "description" o' = assoc "description" o ->
  assoc "lineStart" o' = assoc "lineEnd" o ->
  assoc "lineEnd" o' = assoc "lineStart" o ->
  Zod.success (relatedFileSchema p (Some (JObj o')))
  = Zod.success (relatedFileSchema p (Some (JObj o))).
Proof.
  intros Hp Ht Hd Hs He.
  apply eq_true_iff_eq. rewrite !relatedFileSchema_success.
  unfold relatedFileAccepted. split.
  - intros (x & Hx & H). injection Hx as <-.
    rewrite Hp, Ht, Hd, Hs, He in H. exists o. tauto.
  - intros (x & Hx & H). injection Hx as <-.
    exists o'. rewrite Hp, Ht, Hd, Hs, He. tauto.
Qed.

Lemma relatedFileSchema_lines_exchanged_witness :
  Zod.success (tasksSchema [] (Some (JArr [taskWithFileJson (fileJson 5 3)]))) = true
  /\ Zod.success (relatedFileSchema [] (Some (fileJson 5 3)))
     = Zod.success (relatedFileSchema [] (Some (fileJson 3 5)))
  /\ invalidLineRange (fileWithLines (Some 5%Q) (Some 3%Q)) = true.
Proof.
  split; [reflexivity|]. split; [|reflexivity].
  apply (relatedFileSchema_lines_exchanged []); reflexivity.
Defined.

Section SplitAnswers.

Import TaskModel.

Lemma applyUpdateMode_returns (updateMode : UpdateMode)
    (convertedTasks : list TaskInput) (gar : option string) (w : World) :
  exists st w', applyUpdateMode updateMode convertedTasks gar w = (Returned st, w').
Proof.
  unfold applyUpdateMode. destruct (decide (updateMode = ClearAllTasks)) as [Hm|Hm].
  - unfold clearAllTasks. run_handler. destruct (backupWritable w); simpl.
    + destruct (batchCreateOrUpdateTasks _ _ _ _) as [[c|err] w2]; simpl;
        do 2 eexists; reflexivity.
    + do 2 eexists; reflexivity.
  - run_handler.
    destruct (batchCreateOrUpdateTasks _ _ _ _) as [[c|err] w2]; simpl;
      do 2 eexists; reflexivity.
Qed.

(** The run of [splitTasksRaw] on a batch that passed the schema. *)
Lemma splitTasksRaw_schema_passed (updateMode : UpdateMode) (parsed : json)
    (tasks : list RawTask) (gar : option string) (w : World) :
  tasksSchema [] (Some parsed) = inr tasks ->
  (duplicateName ∅ tasks = true
   /\ splitTasksRaw updateMode (Parsed parsed) gar w
      = (Returned (textResponse DuplicateTaskNames), w))
  \/ (duplicateName ∅ tasks = false
      /\ exists st w',
           applyUpdateMode updateMode (map convertTask tasks) gar w = (Returned st, w')
           /\ splitTasksRaw updateMode (Parsed parsed) gar w
              = (Returned (mkResponse
                             (SplitTasksPrompt updateMode (st_createdTasks st) (durable w'))
                             None
                             (Some {| success := st_actionSuccess st;
                                      message := st_message st;
                                      backupFilePath := st_backupFile st |})), w')).
Proof.
  intros Hschema. unfold splitTasksRaw. rewrite Hschema. run_handler.
  destruct (duplicateName ∅ tasks); [left; split; reflexivity|].
  right. split; [reflexivity|].
  destruct (applyUpdateMode_returns updateMode (map convertTask tasks) gar w)
    as (st & w' & Hrun).
  exists st, w'. split; [exact Hrun|]. rewrite Hrun. reflexivity.
Qed.

(** X8. [splitTasksRaw] gives the duplicate-names answer exactly when the
    batch passes the schema and two of its tasks have the same name,
    names being compared as they are written; a batch of accepted tasks
    with pairwise different names is never refused as a duplicate. *)
Theorem splitTasksRaw_duplicate_answer
    (updateMode : UpdateMode) (parsed : json) (gar : option string) (w : World) :
  result (splitTasksRaw updateMode (Parsed parsed) gar) w
    = Returned (textResponse DuplicateTaskNames)
  <-> exists tasks,
        tasksSchema [] (Some parsed) = inr tasks
        /\ ~ NoDup (map raw_name tasks).
Proof.
  unfold result.
  destruct (tasksSchema [] (Some parsed)) as [issues|tasks] eqn:Hschema.
  - unfold splitTasksRaw. rewrite Hschema. run_handler.
    split; [discriminate | intros (t & H & _); discriminate].
  - destruct (splitTasksRaw_schema_passed updateMode parsed tasks gar w Hschema)
      as [[Hdup Hrun] | [Hdup (st & w' & _ & Hrun)]]; rewrite Hrun; simpl.
    + split; [|reflexivity]. intros _. exists tasks. split; [reflexivity|].
      intros Hnd. apply duplicateName_empty in Hnd. congruence.
    + split; [discriminate|]. intros (t & Ht & Hnd). injection Ht as <-.
      exfalso. apply Hnd. apply duplicateName_empty. exact Hdup.
Qed.

(** X9. The three refusals of [splitTasksRaw] come before any call of
    the store: when the handler returns the parse-error answer, the
    format-error answer or the duplicate-names answer, the store is as
    before and the answer carries no [taskCreationResult]. *)
Theorem splitTasksRaw_refusals_write_nothing
    (updateMode : UpdateMode) (tasksRaw : ParseOutcome) (gar : option string)
    (w : World) (r : ToolResponse SplitText) :
  result (splitTasksRaw updateMode tasksRaw gar) w = Returned r ->
  (exists e, content r = TasksRawFormatError e)
  \/ (exists issues, content r = TasksFormatError issues)
  \/ content r = DuplicateTaskNames ->
  after (splitTasksRaw updateMode tasksRaw gar) w = w
  /\ ephemeral r = None.
Proof.
  unfold result, after. destruct tasksRaw as [e|parsed].
  - simpl. intros Hr _. injection Hr as <-. split; reflexivity.
  - destruct (tasksSchema [] (Some parsed)) as [issues|tasks] eqn:Hschema.
    + unfold splitTasksRaw. rewrite Hschema. run_handler.
      intros Hr _. injection Hr as <-. split; reflexivity.
    + destruct (splitTasksRaw_schema_passed updateMode parsed tasks gar w Hschema)
        as [[Hdup Hrun] | [Hdup (st & w' & _ & Hrun)]]; rewrite Hrun; simpl.
      * intros Hr _. injection Hr as <-. split; reflexivity.
      * intros Hr Hc. injection Hr as <-. simpl in Hc.
        destruct Hc as [[e He] | [[issues He] | He]]; discriminate He.
Qed.

Lemma splitTasksRaw_refusals_write_nothing_witness :
  after (splitTasksRaw Overwrite (Parsed batchTwice) None) sampleStore = sampleStore
  /\ after (splitTasksRaw ClearAllTasks (ParseThrows "Unexpected end of JSON input") None)
             sampleStore = sampleStore.
Proof.
  split.
  - exact (proj1 (splitTasksRaw_refusals_write_nothing Overwrite (Parsed batchTwice)
                    None sampleStore (textResponse DuplicateTaskNames) eq_refl
                    (or_intror (or_intror eq_refl)))).
  - exact (proj1 (splitTasksRaw_refusals_write_nothing ClearAllTasks
                    (ParseThrows "Unexpected end of JSON input") None sampleStore
                    (textResponse (TasksRawFormatError "Unexpected end of JSON input"))
                    eq_refl (or_introl (ex_intro _ _ eq_refl)))).
Defined.

End SplitAnswers.

(** ** More on [updateTaskContent], [verifyTask] and [executeTask] *)

Lemma truthyStr_false (o : option string) : truthyStr o = false <-> absentOrEmpty o.
Proof.
  unfold truthyStr, absentOrEmpty. destruct o as [s|].
  - rewrite negb_false_iff, String.eqb_eq. split.
    + intros ->. right. reflexivity.
    + intros [H|H]; [discriminate | injection H as ->; reflexivity].
  - split; [left; reflexivity | reflexivity].
Qed.

(** Past its two checks the handler looks the task up, and every answer
    it then gives carries [isError]. *)
Lemma updateTaskContent_past_checks (w : World) (tid : string) (u : TaskUpdates) :
  match u_relatedFiles u with
  | Some files => existsb invalidLineRange files
  | None => false
  end = false ->
  truthyStr (u_name u) || truthyStr (u_description u) || truthyStr (u_notes u)
  || truthyArr (u_dependencies u) || truthyStr (u_implementationGuide u)
  || truthyStr (u_verificationCriteria u) || truthyArr (u_relatedFiles u) = true ->
  exists r,
    result (updateTaskContent tid u) w = Returned r
    /\ exists b, isError r = Some b.
Proof.
  intros Hbad Hsupplied.
  unfold result, updateTaskContent. rewrite Hbad, Hsupplied. cbn [negb].
  unfold TaskModel.getTaskById, TaskModel.updateTaskContent. run_handler.
  destruct (TaskModel.findTask tid (durable w)) eqn:E; simpl; rewrite ?E; simpl.
  - branches; eexists; (split; [reflexivity|]); eexists; reflexivity.
  - eexists. split; [reflexivity|]. eexists. reflexivity.
Qed.

(** X10. [updateTaskContent] gives the empty-update answer exactly when
    every text field is absent or the empty string and neither
    dependencies nor relatedFiles is given: an empty string counts as not
    supplied, an empty array counts as supplied. *)
Theorem updateTaskContent_empty_answer (w : World) (tid : string) (u : TaskUpdates) :
  result (updateTaskContent tid u) w = Returned (emptyUpdateAnswer tid)
  <-> nothingSupplied u.
Proof.
  unfold nothingSupplied. rewrite <- !truthyStr_false.
  destruct (match u_relatedFiles u with
            | Some files => existsb invalidLineRange files
            | None => false
            end) eqn:Hbad.
  - destruct (u_relatedFiles u) as [files|] eqn:Hfiles; [|discriminate].
    unfold result, updateTaskContent. rewrite Hfiles, Hbad.
    split; [intros H; discriminate H|].
    intros (_ & _ & _ & _ & _ & _ & H). discriminate.
  - destruct (truthyStr (u_name u) || truthyStr (u_description u)
              || truthyStr (u_notes u) || truthyArr (u_dependencies u)
              || truthyStr (u_implementationGuide u)
              || truthyStr (u_verificationCriteria u)
              || truthyArr (u_relatedFiles u)) eqn:Hsupplied.
    + destruct (updateTaskContent_past_checks w tid u Hbad Hsupplied)
        as (r & Hr & b & Hb).
      rewrite Hr. split.
      * intros H. injection H as ->. discriminate.
      * intros (H1 & H2 & H3 & H4 & H5 & H6 & H7).
        rewrite H1, H2, H3, H4, H5, H6, H7 in Hsupplied. discriminate.
    + unfold result, updateTaskContent. rewrite Hbad, Hsupplied.
      split; [intros _ | reflexivity].
      repeat (apply orb_false_iff in Hsupplied as [Hsupplied ?]).
      unfold truthyArr in *.
      destruct (u_dependencies u), (u_relatedFiles u); try discriminate.
      repeat split; assumption.
Qed.

Lemma updateTaskContent_empty_answer_witness :
  result (updateTaskContent "t1" blankNameUpdate) sampleStore
    = Returned (emptyUpdateAnswer "t1")
  /\ result (updateTaskContent "t1" noDependenciesUpdate) sampleStore
     <> Returned (emptyUpdateAnswer "t1").
Proof.
  split.
  - apply (updateTaskContent_empty_answer sampleStore "t1" blankNameUpdate).
    unfold nothingSupplied, absentOrEmpty. simpl. tauto.
  - intros H.
    apply (updateTaskContent_empty_answer sampleStore "t1" noDependenciesUpdate) in H.
    destruct H as (_ & _ & _ & H & _). discriminate.
Defined.

Lemma nothingSupplied_falsy (u : TaskUpdates) :
  truthyStr (u_name u) || truthyStr (u_description u) || truthyStr (u_notes u)
  || truthyArr (u_dependencies u) || truthyStr (u_implementationGuide u)
  || truthyStr (u_verificationCriteria u) || truthyArr (u_relatedFiles u) = false
  <-> nothingSupplied u.
Proof.
  unfold nothingSupplied. rewrite <- !truthyStr_false, !orb_false_iff.
  unfold truthyArr. destruct (u_dependencies u), (u_relatedFiles u);
    split; intros H; decompose [and] H; repeat split;
    try assumption; try reflexivity; discriminate.
Qed.

(** When the request passes the line-number check and supplies
    something, but no task has the given id, [updateTaskContent] answers
    with the not-found prompt, [isError] set, and the store is
    unchanged. *)
Lemma updateTaskContent_unknown_task (w : World) (tid : string) (u : TaskUpdates) :
  (forall files, u_relatedFiles u = Some files ->
     existsb invalidLineRange files = false) ->
  ~ nothingSupplied u ->
  TaskModel.findTask tid (durable w) = None ->
  result (updateTaskContent tid u) w = Returned (taskNotFoundAnswer tid)
  /\ after (updateTaskContent tid u) w = w.
Proof.
  intros Hfiles Hsupplied Hfind.
  assert (Hbad : match u_relatedFiles u with
                 | Some files => existsb invalidLineRange files
                 | None => false
                 end = false).
  { destruct (u_relatedFiles u) as [files|]; [apply Hfiles|]; reflexivity. }
  assert (Hs : truthyStr (u_name u) || truthyStr (u_description u)
               || truthyStr (u_notes u) || truthyArr (u_dependencies u)
               || truthyStr (u_implementationGuide u)
               || truthyStr (u_verificationCriteria u)
               || truthyArr (u_relatedFiles u) = true).
  { apply not_false_iff_true. intros H. apply Hsupplied, nothingSupplied_falsy, H. }
  unfold result, after, updateTaskContent. rewrite Hbad, Hs. cbn [negb].
  unfold TaskModel.getTaskById. run_handler. rewrite Hfind. split; reflexivity.
Qed.

Lemma updateTaskContent_unknown_task_witness :
  result (updateTaskContent "t404" noDependenciesUpdate) sampleStore
    = Returned (taskNotFoundAnswer "t404")
  /\ after (updateTaskContent "t404" noDependenciesUpdate) sampleStore = sampleStore.
Proof.
  apply (updateTaskContent_unknown_task sampleStore "t404" noDependenciesUpdate).
  - intros files H. discriminate H.
  - intros (_ & _ & _ & H & _). discriminate H.
  - reflexivity.
Defined.

(** For an id that no task has, [verifyTask] answers with the
    not-found error and sets [isError]; [executeTask] answers with its
    not-found text and does not set [isError]; neither writes to the
    store. *)
Lemma unknown_task_answers (w : World) (tid text : string) (score : Q) :
  TaskModel.findTask tid (durable w) = None ->
  verifyTask tid text score w = (Returned (errorResponse (VerifyTaskNotFound tid)), w)
  /\ executeTask tid w = (Returned (textResponse (ExecuteTaskNotFound tid)), w)
  /\ isError (errorResponse (VerifyTaskNotFound tid)) = Some true
  /\ isError (textResponse (ExecuteTaskNotFound tid)) = None.
Proof.
  intros Hfind. unfold verifyTask, executeTask, TaskModel.getTaskById. run_handler.
  rewrite Hfind. repeat split.
Qed.

Lemma unknown_task_answers_witness :
  verifyTask "t404" summary30 90 sampleStore
    = (Returned (errorResponse (VerifyTaskNotFound "t404")), sampleStore)
  /\ executeTask "t404" sampleStore
     = (Returned (textResponse (ExecuteTaskNotFound "t404")), sampleStore).
Proof.
  destruct (unknown_task_answers sampleStore "t404" summary30 90 eq_refl)
    as (Hv & He & _).
  split; assumption.
Defined.

Section ExecuteTaskMore.

Import TaskModel.

Lemma dependencyTasksOf_found (deps : list TaskDependency) (w : World) :
  dependencyTasksOf deps w
  = (Returned (omap (fun d => findTask (taskId d) (durable w)) deps), w).
Proof.
  induction deps as [|d ds IH]; [reflexivity|].
  cbn [dependencyTasksOf]. unfold getTaskById. run_handler.
  fold (dependencyTasksOf ds). rewrite IH. simpl.
  destruct (findTask (taskId d) (durable w)); reflexivity.
Qed.

(** [executeTask] on a task that the gate lets through and that is
    neither in progress nor completed. *)
Lemma executeTask_passed_other (w : World) (tid : string) (t : Task) :
  findTask tid (durable w) = Some t ->
  blockingDependencies (durable w) t = [] ->
  status t <> IN_PROGRESS ->
  status t <> COMPLETED ->
  exists c,
    executeTask tid w
    = (Returned
         (textResponse
            (ExecuteTaskPrompt t c
               (match relatedFiles t with Some (f :: fs) => f :: fs | _ => [] end)
               (omap (fun d =>
                        findTask (taskId d)
                          (alterTask tid (withStatus IN_PROGRESS (clock w)) (durable w)))
                     (dependencies t)))),
       setDurable (alterTask tid (withStatus IN_PROGRESS (clock w)) (durable w)) w).
Proof.
  intros Hfind He Hs1 Hs2. unfold executeTask, getTaskById. run_handler.
  rewrite Hfind. simpl.
  rewrite (canExecuteTask_found _ _ _ Hfind Hs1 Hs2). simpl. rewrite He. simpl.
  rewrite !bool_decide_eq_false_2 by assumption.
  unfold updateTaskStatus, getTaskById. run_handler.
  set (w' := setDurable _ w).
  destruct (assessTaskComplexity_reads tid w') as [c Hc]. rewrite Hc.
  rewrite (dependencyTasksOf_found (dependencies t) w'). simpl.
  eexists. reflexivity.
Qed.

(** X13. [executeTask] always answers, and never sets [isError] or
    [ephemeral], whatever the id and the store: a refusal can be told
    from a start only by the text. *)
Theorem executeTask_never_flags (w : World) (tid : string) :
  exists r,
    result (executeTask tid) w = Returned r
    /\ isError r = None /\ ephemeral r = None.
Proof.
  unfold result.
  destruct (findTask tid (durable w)) as [t|] eqn:Hfind.
  - destruct (decide (status t = IN_PROGRESS)) as [Hs1|Hs1].
    { rewrite (executeTask_passed_started _ _ _ Hfind Hs1).
      eexists. repeat split. }
    destruct (decide (status t = COMPLETED)) as [Hs2|Hs2].
    { rewrite (executeTask_passed_completed _ _ _ Hfind Hs2).
      eexists. repeat split. }
    destruct (blockingDependencies (durable w) t) as [|b bs] eqn:Hb.
    + destruct (executeTask_passed_other _ _ _ Hfind Hb Hs1 Hs2) as [c Hrun].
      rewrite Hrun. eexists. repeat split.
    + rewrite (executeTask_blocked _ _ _ Hfind Hs1 Hs2) by (rewrite Hb; discriminate).
      eexists. repeat split.
  - unfold executeTask, getTaskById. run_handler. rewrite Hfind.
    eexists. repeat split.
Qed.

(** X14. A task that is neither in progress nor completed, so also one
    stored as [blocked], is started by [executeTask] once the gate lets
    it through: the stored status becomes [in_progress], and the prompt
    is built from the task as it was read before the write and from the
    dependency tasks that exist, in dependency-list order. *)
Theorem executeTask_starts_any_unstarted (w : World) (tid : string) (t : Task) :
  findTask tid (durable w) = Some t ->
  blockingDependencies (durable w) t = [] ->
  status t <> IN_PROGRESS ->
  status t <> COMPLETED ->
  (exists t',
     findTask tid (durable (after (executeTask tid) w)) = Some t'
     /\ status t' = IN_PROGRESS /\ updatedAt t' = clock w)
  /\ exists c fs,
       result (executeTask tid) w
       = Returned
           (textResponse
              (ExecuteTaskPrompt t c fs
                 (omap (fun d =>
                          findTask (taskId d) (durable (after (executeTask tid) w)))
                       (dependencies t)))).
Proof.
  intros Hfind He Hs1 Hs2.
  destruct (executeTask_passed_other _ _ _ Hfind He Hs1 Hs2) as [c Hrun].
  unfold result, after. rewrite Hrun. simpl. split.
  - rewrite findTask_alterTask by (intros; reflexivity).
    rewrite Hfind. simpl. eexists. repeat split.
  - do 2 eexists. reflexivity.
Qed.

Lemma executeTask_starts_any_unstarted_witness :
  exists t',
    findTask "t7" (durable (after (executeTask "t7") storeWithBlocked)) = Some t'
    /\ status t' = IN_PROGRESS /\ updatedAt t' = 2000%Z.
Proof.
  apply (executeTask_starts_any_unstarted storeWithBlocked "t7" taskMarkedBlocked);
    [reflexivity | reflexivity | discriminate | discriminate].
Defined.

End ExecuteTaskMore.

(** ** [processThought] *)

(** X15. The data [processThought] gives to its prompt generator never
    has a thought number above the total: the total is raised to the
    thought number when it was below and is otherwise kept, the other
    fields pass through, and absent lists become empty.  The answer is
    the generated text, or the error text when the generator throws. *)
Theorem processThought_total_adjusted (params : ProcessThoughtParams) :
  exists d,
    (forall getProcessThoughtPrompt,
       processThought getProcessThoughtPrompt params
       = thoughtAnswer (getProcessThoughtPrompt d))
    /\ thoughtNumber d = thought_number params
    /\ (thoughtNumber d <= totalThoughts d)%Q
    /\ (total_thoughts params <= totalThoughts d)%Q
    /\ (totalThoughts d = thought_number params
        \/ totalThoughts d = total_thoughts params)
    /\ td_thought d = thought params
    /\ td_stage d = stage params
    /\ nextThoughtNeeded d = next_thought_needed params
    /\ td_tags d = default [] (tags params)
    /\ td_axioms_used d = default [] (axioms_used params)
    /\ td_assumptions_challenged d = default [] (assumptions_challenged params).
Proof.
  exists (thoughtDataOf params). split; [reflexivity|].
  unfold thoughtDataOf. cbn [thoughtNumber totalThoughts].
  destruct (jsGt (Some (thought_number params)) (Some (total_thoughts params))) eqn:E;
    cbn [thoughtNumber totalThoughts td_thought td_stage nextThoughtNeeded td_tags
         td_axioms_used td_assumptions_challenged].
  - apply jsGt_lt in E. repeat split; try reflexivity.
    + apply Qle_refl.
    + apply Qlt_le_weak. exact E.
    + left. reflexivity.
  - assert (Hle : (thought_number params <= total_thoughts params)%Q).
    { apply Qnot_lt_le. intros Hlt. apply jsGt_lt in Hlt. congruence. }
    repeat split; try reflexivity.
    + exact Hle.
    + apply Qle_refl.
    + right. reflexivity.
Qed.

(** ** More on [splitTasksRaw] *)

(** X16. In the modes other than [clearAllTasks], on a batch that passes
    the schema with distinct names, the answer of [splitTasksRaw] follows
    the outcome of the creation: when it returns, [success] is true and
    the prompt lists the created tasks; when it throws, [success] is
    false, the message is "Task creation failed: " and the error, and no
    created task is listed.  In both cases no backup path is reported and
    the prompt lists the stored tasks as they are after the call. *)
Theorem splitTasksRaw_creation_outcome
    (updateMode : UpdateMode) (parsed : json) (tasks : list RawTask)
    (gar : option string) (w : World) :
  updateMode <> ClearAllTasks ->
  tasksSchema [] (Some parsed) = inr tasks ->
  NoDup (map raw_name tasks) ->
  match TaskModel.batchCreateOrUpdateTasks (map convertTask tasks) updateMode gar w with
  | (Returned created, w') =>
      exists m,
        splitTasksRaw updateMode (Parsed parsed) gar w
        = (Returned (mkResponse (SplitTasksPrompt updateMode created (durable w')) None
                       (Some {| success := true; message := m;
                                backupFilePath := None |})), w')
  | (Thrown e, w') =>
      splitTasksRaw updateMode (Parsed parsed) gar w
      = (Returned (mkResponse (SplitTasksPrompt updateMode [] (durable w')) None
                     (Some {| success := false;
                              message := "Task creation failed: " ++ e;
                              backupFilePath := None |})), w')
  end.
Proof.
  intros Hmode Hschema Hnd. apply duplicateName_empty in Hnd.
  unfold splitTasksRaw. rewrite Hschema. run_handler. rewrite Hnd.
  unfold applyUpdateMode.
  destruct (decide (updateMode = ClearAllTasks)) as [Hm|_]; [contradiction|].
  run_handler.
  destruct (TaskModel.batchCreateOrUpdateTasks _ _ _ _) as [[created|e] w']; simpl.
  - eexists. reflexivity.
  - reflexivity.
Qed.

Lemma splitTasksRaw_creation_outcome_witness :
  splitTasksRaw Append (Parsed batchUnresolved) None sampleStore
  = (Returned (mkResponse (SplitTasksPrompt Append [] (durable sampleStore)) None
                 (Some {| success := false;
                          message := "Task creation failed: DependencyNotFound: no such task";
                          backupFilePath := None |})), sampleStore).
Proof.
  exact (splitTasksRaw_creation_outcome Append batchUnresolved tasksUnresolved None
           sampleStore ltac:(discriminate) eq_refl ltac:(apply NoDup_singleton)).
Defined.

Section TaskKeys.

Lemma taskSchema_same_keys (p : list Zod.PathSeg) (j j' : json) :
  sameTaskKeys j j' -> taskSchema p (Some j) = taskSchema p (Some j').
Proof.
  intros (o & o' & -> & -> & Hkeys).
  unfold taskKeys in Hkeys.
  repeat match goal with
         | H : Forall _ (_ :: _) |- _ =>
             apply Forall_cons in H; destruct H as [? H]
         end.
  unfold taskSchema, zObject, Zod.field. congruence.
Qed.

Lemma parseItems_same_keys (items items' : list json) :
  Forall2 sameTaskKeys items items' ->
  forall p i, Zod.parseItems taskSchema p i items = Zod.parseItems taskSchema p i items'.
Proof.
  induction 1 as [|j j' rest rest' Hj _ IH]; intros p i; [reflexivity|].
  cbn [Zod.parseItems]. rewrite (taskSchema_same_keys _ _ _ Hj), IH. reflexivity.
Qed.

(** X17. [splitTasksRaw] reads seven keys of a task object and nothing
    else: two batches whose objects agree on name, description,
    implementationGuide, dependencies, notes, relatedFiles and
    verificationCriteria get the same answer and leave the same store, so
    an id, a status or a summary written into the batch has no effect. *)
Theorem splitTasksRaw_reads_task_keys
    (updateMode : UpdateMode) (items items' : list json) (gar : option string)
    (w : World) :
  Forall2 sameTaskKeys items items' ->
  splitTasksRaw updateMode (Parsed (JArr items)) gar w
  = splitTasksRaw updateMode (Parsed (JArr items')) gar w.
Proof.
  intros Hsame.
  assert (Hschema : tasksSchema [] (Some (JArr items))
                    = tasksSchema [] (Some (JArr items'))).
  { unfold tasksSchema, Zod.zArray.
    rewrite (parseItems_same_keys _ _ Hsame).
    destruct Hsame; reflexivity. }
  unfold splitTasksRaw. rewrite Hschema. reflexivity.
Qed.

Lemma splitTasksRaw_reads_task_keys_witness :
  splitTasksRaw Append (Parsed (JArr [taskJsonWithStatus])) None sampleStore
  = splitTasksRaw Append (Parsed (JArr [taskJson "lexer" tenChars []])) None sampleStore.
Proof.
  apply splitTasksRaw_reads_task_keys.
  repeat constructor.
  exists [("id", JStr "t9"); ("status", JStr "completed");
          ("name", JStr "lexer"); ("description", JStr tenChars);
          ("summary", JStr "already done");
          ("implementationGuide", JStr "follow the plan");
          ("dependencies", JArr [])],
         [("name", JStr "lexer"); ("description", JStr tenChars);
          ("implementationGuide", JStr "follow the plan");
          ("dependencies", JArr (map JStr []))].
  split; [reflexivity|]. split; [reflexivity|].
  repeat constructor.
Defined.

End TaskKeys.

(** ** [getTaskDetail] *)

Lemma getTaskDetail_cases
    (searchTasksWithCommand : string -> bool -> nat -> nat -> M (list Task))
    (tid : string) (w : World) :
  match searchTasksWithCommand tid true 1%nat 1%nat w with
  | (Returned [], w') =>
      getTaskDetail searchTasksWithCommand tid w
      = (Returned (mkResponse (TaskDetailNotFound tid) (Some true) None), w')
  | (Returned (task :: _), w') =>
      getTaskDetail searchTasksWithCommand tid w
      = (Returned (mkResponse (TaskDetailPrompt tid task) None None), w')
  | (Thrown error, w') =>
      getTaskDetail searchTasksWithCommand tid w
      = (Returned (mkResponse (TaskDetailErrorPrompt tid error) None None), w')
  end.
Proof.
  unfold getTaskDetail. run_handler.
  destruct (searchTasksWithCommand tid true 1%nat 1%nat w) as [[[|task rest]|error] w'];
    reflexivity.
Qed.

(** X18. Whatever the search does, [getTaskDetail] always answers and
    leaves the store as the search (asked for the id, by id, page 1 of
    size 1) left it; [isError] is set exactly when the search returned no
    task, so a search that throws is reported in the text only. *)
Theorem getTaskDetail_error_flag
    (searchTasksWithCommand : string -> bool -> nat -> nat -> M (list Task))
    (tid : string) (w : World) :
  exists r,
    result (getTaskDetail searchTasksWithCommand tid) w = Returned r
    /\ after (getTaskDetail searchTasksWithCommand tid) w
       = after (searchTasksWithCommand tid true 1%nat 1%nat) w
    /\ (isError r = Some true
        <-> result (searchTasksWithCommand tid true 1%nat 1%nat) w = Returned [])
    /\ (forall e,
          result (searchTasksWithCommand tid true 1%nat 1%nat) w = Thrown e ->
          r = textResponse (TaskDetailErrorPrompt tid e)).
Proof.
  pose proof (getTaskDetail_cases searchTasksWithCommand tid w) as H.
  unfold result, after.
  destruct (searchTasksWithCommand tid true 1%nat 1%nat w) as [[[|task rest]|error] w'];
    rewrite H; simpl; eexists; (split; [reflexivity|]); (split; [reflexivity|]);
    split; try (split; intros E; try reflexivity; discriminate E);
    intros e E; try discriminate E.
  injection E as <-. reflexivity.
Qed.

(** ** Error flags and writes *)

(** X12. An answer of [verifyTask] sets [isError] exactly when no task
    in progress has the given id (the id is unknown or the task has
    another status), and an answer with [isError] has written nothing. *)
Theorem verifyTask_error_flag (w : World) (tid text : string) (score : Q)
    (r : ToolResponse VerifyText) :
  result (verifyTask tid text score) w = Returned r ->
  (isError r = Some true
   <-> ~ exists t, TaskModel.findTask tid (durable w) = Some t
                   /\ status t = IN_PROGRESS)
  /\ (isError r = Some true -> after (verifyTask tid text score) w = w).
Proof.
  unfold result, after, verifyTask.
  unfold TaskModel.getTaskById, TaskModel.updateTaskSummary, TaskModel.updateTaskStatus.
  run_handler.
  destruct (TaskModel.findTask tid (durable w)) as [t|] eqn:Hfind; simpl.
  - destruct (decide (status t = IN_PROGRESS)) as [Hs|Hs].
    + rewrite bool_decide_eq_true_2 by exact Hs. simpl.
      destruct (Qle_bool 80 score); simpl; intros Hr; injection Hr as <-;
        (split; [|discriminate]);
        (split; [discriminate | intros H; exfalso; apply H; eauto]).
    + rewrite bool_decide_eq_false_2 by exact Hs. simpl.
      intros Hr. injection Hr as <-. split; [|reflexivity].
      split; [|reflexivity]. intros _ (t' & Ht' & Hs'). congruence.
  - intros Hr. injection Hr as <-. split; [|reflexivity].
    split; [|reflexivity]. intros _ (t' & Ht' & _). discriminate.
Qed.

Lemma verifyTask_error_flag_witness :
  after (verifyTask "t0" summary30 90) sampleStore = sampleStore
  /\ (isError (textResponse (VerifyTaskPrompt taskStarted 50 summary30)) = Some true
      <-> ~ exists t, TaskModel.findTask "t1" (durable sampleStore) = Some t
                      /\ status t = IN_PROGRESS).
Proof.
  split.
  - exact (proj2 (verifyTask_error_flag sampleStore "t0" summary30 90
                    (errorResponse (VerifyStatusError taskWaiting)) eq_refl) eq_refl).
  - exact (proj1 (verifyTask_error_flag sampleStore "t1" summary30 50
                    (textResponse (VerifyTaskPrompt taskStarted 50 summary30))
                    eq_refl)).
Defined.

(** X11. [updateTaskContent] writes to the store only for a request that
    passes the line-number check, supplies something, and names a task
    that exists; every other request leaves the store as it was. *)
Theorem updateTaskContent_writes_only_if (w : World) (tid : string) (u : TaskUpdates) :
  after (updateTaskContent tid u) w <> w ->
  (forall files, u_relatedFiles u = Some files ->
     existsb invalidLineRange files = false)
  /\ ~ nothingSupplied u
  /\ exists t, TaskModel.findTask tid (durable w) = Some t.
Proof.
  intros Hwrite.
  destruct (match u_relatedFiles u with
            | Some files => existsb invalidLineRange files
            | None => false
            end) eqn:Hbad.
  { exfalso. apply Hwrite. unfold after, updateTaskContent. rewrite Hbad. reflexivity. }
  split; [|split].
  - intros files Hfiles. rewrite Hfiles in Hbad. exact Hbad.
  - intros Hnothing. apply Hwrite.
    apply nothingSupplied_falsy in Hnothing.
    unfold after, updateTaskContent. rewrite Hbad, Hnothing. reflexivity.
  - destruct (TaskModel.findTask tid (durable w)) as [t|] eqn:Hfind; [eauto|].
    exfalso. apply Hwrite.
    destruct (truthyStr (u_name u) || truthyStr (u_description u)
              || truthyStr (u_notes u) || truthyArr (u_dependencies u)
              || truthyStr (u_implementationGuide u)
              || truthyStr (u_verificationCriteria u)
              || truthyArr (u_relatedFiles u)) eqn:Hs.
    + unfold after, updateTaskContent. rewrite Hbad, Hs. cbn [negb].
      unfold TaskModel.getTaskById. run_handler. rewrite Hfind. reflexivity.
    + unfold after, updateTaskContent. rewrite Hbad, Hs. reflexivity.
Qed.

Lemma updateTaskContent_writes_only_if_witness :
  exists t, TaskModel.findTask "t1" (durable sampleStore) = Some t.
Proof.
  apply (updateTaskContent_writes_only_if sampleStore "t1" renameUpdate).
  intros H.
  apply (f_equal (fun w => name <$> TaskModel.findTask "t1" (durable w))) in H.
  vm_compute in H. discriminate H.
Defined.
